(** * Reconciliation core of the Azure DevOps provider

    A shallow embedding of the resource adapters for feeds, feed
    permissions, audit streams and group entitlements, together with the
    properties of their create / read / delete reconciliation.

    Conventions of the embedding.

    - The remote service is a value of an arbitrary type [G] together with
      one transition function per SDK method (record [AggregatedClient]).
      Every method that is invoked is appended to the session's call log,
      so that statements can count and order the remote calls.
    - [*schema.ResourceData] is a mutable object in the source; here it is
      the [data] component of the session and is updated in place by
      [modify].
    - Go functions returning [error] return [option error]; a pair
      [(value, err)] is a [result].
    - A pointer field of an SDK struct is an [option] exactly when the
      source itself builds the struct with that field left nil or tests
      the field against nil; dereferencing [None] panics.  The remaining
      pointer fields, which only exist for JSON encoding, are modelled by
      their values.
    - The typed string enumerations of the SDK ([feed.ChangeType],
      [feed.FeedRole], [audit.AuditStreamStatus]) are strings, as in Go. *)

From Stdlib Require Import String List ZArith Bool Lia Ascii.
From Stdlib Require Import Decimal DecimalString.
Import ListNotations.

Set Implicit Arguments.
Local Open Scope string_scope.
Local Open Scope list_scope.

(** ** Errors *)

(** The error values that flow through the adapters.  [fmt.Errorf] keeps
    its format string and printed arguments; [ErrorfWrap] is [fmt.Errorf]
    with an error operand, which is kept as well so that the origin of a
    failure stays visible after wrapping. *)
Inductive error : Type :=
| WrappedError (StatusCode : option Z) (Message : string)
| TimeoutError (LastState : string) (ExpectedState : list string)
| UnexpectedStateError (State : string) (ExpectedState : list string)
| NumError (Func Num : string)
| ErrorString (msg : string)
| Errorf (format : string) (args : list string)
| ErrorfWrap (format : string) (args : list string) (cause : error).

Inductive result (A : Type) : Type :=
| Ok (a : A)
| Err (e : error).
Arguments Ok {A} a.
Arguments Err {A} e.

Definition StatusNotFound : Z := 404.

(** Modelled from the spec: [utils.ResponseWasNotFound], whose source file
    is not among the embedded ones.  The classification is driven by the
    declared status of the remote response: an error is not-found when it
    is a [WrappedError] whose status code is 404. *)
Definition ResponseWasNotFound (err : error) : bool :=
  match err with
  | WrappedError (Some code) _ => Z.eqb code StatusNotFound
  | _ => false
  end.

(** ** SDK data *)

Record ProjectReference := { ProjectReference_Id : string }.

Record Feed := {
  Feed_Id : option string;
  Feed_Name : string;
  Feed_Project : option ProjectReference
}.

Record FeedUpdate := { }.

Record FeedChange := { ChangeType : string }.

Definition ChangeTypeValues_AddOrUpdate : string := "addOrUpdate".
Definition ChangeTypeValues_Delete : string := "delete".

Inductive Operation := OpAdd | OpRemove | OpReplace | OpMove | OpCopy | OpTest.

Inductive JsonValue := JBool (b : bool) | JString (s : string).

Record JsonPatchOperation := {
  From : option string;
  Path : string;
  Op : Operation;
  Value : JsonValue
}.

Definition FeedRoleValues_None : string := "none".
Definition FeedRoleValues_Reader : string := "reader".
Definition FeedRoleValues_Contributor : string := "contributor".
Definition FeedRoleValues_Administrator : string := "administrator".
Definition FeedRoleValues_Collaborator : string := "collaborator".

Record FeedPermission := {
  DisplayName : option string;
  IdentityDescriptor : string;
  IdentityId : option string;
  Role : string
}.

Record GraphStorageKeyResult := { StorageKey_Value : string }.

Record Identity := {
  Descriptor : string;
  Identity_Id : string
}.

(** [audit.AuditStreamStatusValues] is a package-level struct; the source
    takes the address of its fields.  A status pointer is therefore either
    the address of one of these fields or the address of a heap cell (what
    decoding a response allocates). *)
Inductive StatusField :=
| FUnknown | FEnabled | FDisabledByUser | FDisabledBySystem | FDeleted
| FBackfilling.

Definition AuditStreamStatusValues (f : StatusField) : string :=
  match f with
  | FUnknown => "unknown"
  | FEnabled => "enabled"
  | FDisabledByUser => "disabledByUser"
  | FDisabledBySystem => "disabledBySystem"
  | FDeleted => "deleted"
  | FBackfilling => "backfilling"
  end.

Inductive StatusPtr :=
| AddrOfValues (f : StatusField)
| HeapCell (addr : nat) (content : string).

Definition deref_status (p : StatusPtr) : string :=
  match p with
  | AddrOfValues f => AuditStreamStatusValues f
  | HeapCell _ v => v
  end.

Definition StatusField_eqb (a b : StatusField) : bool :=
  match a, b with
  | FUnknown, FUnknown | FEnabled, FEnabled
  | FDisabledByUser, FDisabledByUser
  | FDisabledBySystem, FDisabledBySystem
  | FDeleted, FDeleted | FBackfilling, FBackfilling => true
  | _, _ => false
  end.

(** Go's [==] on two [*AuditStreamStatus]: identity of the addresses. *)
Definition ptr_eqb (p q : option StatusPtr) : bool :=
  match p, q with
  | None, None => true
  | Some (AddrOfValues f), Some (AddrOfValues f') => StatusField_eqb f f'
  | Some (HeapCell a _), Some (HeapCell a' _) => Nat.eqb a a'
  | _, _ => false
  end.

Record AuditStream := {
  AuditStream_DisplayName : option string;
  AuditStream_Id : option Z;
  AuditStream_Status : option StatusPtr
}.

Record AccessLevel := {
  AccountLicenseType : string;
  LicensingSource : string
}.

Record GraphGroup := {
  Group_Descriptor : option string;
  Group_Origin : string;
  Group_OriginId : option string;
  Group_DisplayName : string;
  Group_PrincipalName : string;
  Group_SubjectKind : string
}.

Record GroupEntitlement := {
  GroupEntitlement_Id : option string;
  LicenseRule : AccessLevel;
  Group : GraphGroup
}.

Record GroupOperationResult := {
  Errors : option (list (string * string));
  IsSuccess : bool;
  Result : GroupEntitlement
}.

Record GroupEntitlementOperationReference := {
  Results : list GroupOperationResult
}.

(** ** Remote calls *)

Inductive Call : Type :=
| GetFeedCall (FeedId Project : string)
| CreateFeedCall (feed : Feed) (Project : string)
| UpdateFeedCall (feed : FeedUpdate) (FeedId Project : string)
| DeleteFeedCall (FeedId Project : string)
| PermanentDeleteFeedCall (FeedId Project : string)
| GetFeedChangeCall (FeedId Project : string)
| RestoreDeletedFeedCall (FeedId Project : string)
    (PatchJson : list JsonPatchOperation)
| GetFeedPermissionsCall (FeedId Project : string)
| SetFeedPermissionsCall (FeedId Project : string)
    (permissions : list FeedPermission)
| GetStorageKeyCall (SubjectDescriptor : string)
| ReadIdentityCall (IdentityId : string)
| CreateStreamCall (Stream : AuditStream) (DaysToBackfill : Z)
| QueryStreamByIdCall (StreamId : Z)
| UpdateStreamCall (Stream : AuditStream)
| DeleteStreamCall (StreamId : Z)
| UpdateStatusCall (StreamId : option Z) (Status : option StatusPtr)
| AddGroupEntitlementCall (entitlement : GroupEntitlement)
| GetGroupEntitlementCall (GroupId : string).

(** [client.AggregatedClient]: the SDK clients, each method a transition
    of the remote state.  [NewUUID] is the local source of fresh UUIDs
    ([uuid.NewUUID]); it is not a remote call and is not logged. *)
Record AggregatedClient (G : Type) := {
  (* FeedClient *)
  GetFeed : string -> string -> G -> result (option Feed) * G;
  CreateFeed : Feed -> string -> G -> result Feed * G;
  UpdateFeed : FeedUpdate -> string -> string -> G -> result Feed * G;
  DeleteFeed : string -> string -> G -> option error * G;
  PermanentDeleteFeed : string -> string -> G -> option error * G;
  GetFeedChange : string -> string -> G -> result FeedChange * G;
  RestoreDeletedFeed :
    string -> string -> list JsonPatchOperation -> G -> option error * G;
  GetFeedPermissions :
    string -> string -> G -> result (list FeedPermission) * G;
  SetFeedPermissions :
    string -> string -> list FeedPermission -> G ->
    result (list FeedPermission) * G;
  (* GraphClient *)
  GetStorageKey : string -> G -> result GraphStorageKeyResult * G;
  (* IdentityClient *)
  ReadIdentity : string -> G -> result Identity * G;
  (* AuditClient *)
  CreateStream : AuditStream -> Z -> G -> result AuditStream * G;
  QueryStreamById : Z -> G -> result AuditStream * G;
  UpdateStream : AuditStream -> G -> result AuditStream * G;
  DeleteStream : Z -> G -> option error * G;
  UpdateStatus :
    option Z -> option StatusPtr -> G -> result AuditStream * G;
  (* MemberEntitleManagementClient *)
  AddGroupEntitlement :
    GroupEntitlement -> G -> result GroupEntitlementOperationReference * G;
  GetGroupEntitlement : string -> G -> result GroupEntitlement * G;
  (* local entropy *)
  NewUUID : G -> string * G
}.

(** ** The session monad *)

Record Session (D G : Type) := mkSession {
  data : D;
  remote : G;
  calls : list Call
}.

Inductive outcome (A : Type) : Type :=
| Done (a : A)
| Panicked (reason : string).
Arguments Done {A} a.
Arguments Panicked {A} reason.

Definition M (D G A : Type) : Type := Session D G -> outcome A * Session D G.

Section Monad.
Context {D G : Type}.

Definition ret {A} (a : A) : M D G A := fun s => (Done a, s).

Definition bind {A B} (m : M D G A) (k : A -> M D G B) : M D G B :=
  fun s =>
    match m s with
    | (Done a, s') => k a s'
    | (Panicked r, s') => (Panicked r, s')
    end.

Definition panic {A} (reason : string) : M D G A :=
  fun s => (Panicked reason, s).

(** [d.Get]: read the resource data. *)
Definition get_data : M D G D := fun s => (Done (data s), s).

(** [d.Set] and [d.SetId]: update the resource data in place. *)
Definition modify (f : D -> D) : M D G unit :=
  fun s => (Done tt, mkSession (f (data s)) (remote s) (calls s)).

(** A remote call: run the transition and log the call. *)
Definition invoke {R} (c : Call) (f : G -> R * G) : M D G R :=
  fun s =>
    (Done (fst (f (remote s))),
     mkSession (data s) (snd (f (remote s))) (calls s ++ [c])).

(** A local effect on the ambient state that is not a remote call. *)
Definition ambient {R} (f : G -> R * G) : M D G R :=
  fun s =>
    (Done (fst (f (remote s))),
     mkSession (data s) (snd (f (remote s))) (calls s)).

(** Dereference of a pointer that may be nil. *)
Definition deref {A} (p : option A) : M D G A :=
  match p with
  | Some a => ret a
  | None => panic "invalid memory address or nil pointer dereference"
  end.
End Monad.

Declare Scope session_scope.
Delimit Scope session_scope with session.
Notation "x <- c ;; k" := (bind c (fun x => k))
  (at level 100, c at next level, right associativity) : session_scope.
Notation "c ;;; k" := (bind c (fun _ => k))
  (at level 100, right associativity) : session_scope.
Local Open Scope session_scope.

Definition start {D G} (d : D) (g : G) : Session D G := mkSession d g [].

Definition count_calls (p : Call -> bool) (l : list Call) : nat :=
  length (filter p l).

(** ** strconv *)

Definition int_min : Z := - 2 ^ 63.
Definition int_max : Z := 2 ^ 63 - 1.

(** [strconv.Atoi]: an optional sign followed by decimal digits, within the
    range of a 64-bit [int]. *)
Definition Atoi (s : string) : result Z :=
  let parsed :=
    match s with
    | String "+"%char rest => option_map Z.of_uint (NilZero.uint_of_string rest)
    | _ => option_map Z.of_int (NilZero.int_of_string s)
    end in
  match parsed with
  | Some z =>
      if (Z.leb int_min z && Z.leb z int_max)%bool then Ok z
      else Err (NumError "Atoi" s)
  | None => Err (NumError "Atoi" s)
  end.

(** [strconv.Itoa]. *)
Definition Itoa (z : Z) : string := NilZero.string_of_int (Z.to_int z).

(** ** Package feed: resource_feed.go *)

Module FeedResource.

Record ResourceData := {
  Id : string;
  name : string;
  project_id : string;
  permanent_delete : bool;
  restored : bool
}.

Definition SetId (v : string) (d : ResourceData) : ResourceData :=
  {| Id := v; name := name d; project_id := project_id d;
     permanent_delete := permanent_delete d; restored := restored d |}.

Definition Set_name (v : string) (d : ResourceData) : ResourceData :=
  {| Id := Id d; name := v; project_id := project_id d;
     permanent_delete := permanent_delete d; restored := restored d |}.

Definition Set_project_id (v : string) (d : ResourceData) : ResourceData :=
  {| Id := Id d; name := name d; project_id := v;
     permanent_delete := permanent_delete d; restored := restored d |}.

Definition Set_restored (v : bool) (d : ResourceData) : ResourceData :=
  {| Id := Id d; name := name d; project_id := project_id d;
     permanent_delete := permanent_delete d; restored := v |}.

(** The patch document of [restoreFeed]. *)
Definition restorePatch : list JsonPatchOperation :=
  [ {| From := None; Path := "/isDeleted"; Op := OpReplace;
       Value := JBool false |} ].

Section WithClients.
Context {G : Type} (clients : AggregatedClient G).

Definition Action (A : Type) : Type := M ResourceData G A.

Definition resourceFeedRead : Action (option error) :=
  d <- get_data ;;
  let name := name d in
  let projectId := project_id d in
  r <- invoke (GetFeedCall name projectId) (GetFeed clients name projectId) ;;
  match r with
  | Err err =>
      if ResponseWasNotFound err then
        modify (SetId "") ;;; ret None
      else
        ret (Some (ErrorfWrap "error reading feed during read: %+v" [] err))
  | Ok None => ret None
  | Ok (Some getFeed) =>
      id <- deref (Feed_Id getFeed) ;;
      modify (SetId id) ;;;
      modify (Set_name (Feed_Name getFeed)) ;;;
      match Feed_Project getFeed with
      | Some p => modify (Set_project_id (ProjectReference_Id p)) ;;; ret None
      | None => ret None
      end
  end.

Definition isFeedRestorable : Action bool :=
  d <- get_data ;;
  let name := name d in
  let projectId := project_id d in
  r <- invoke (GetFeedChangeCall name projectId)
              (GetFeedChange clients name projectId) ;;
  match r with
  | Ok change => ret (String.eqb (ChangeType change) ChangeTypeValues_Delete)
  | Err _ => ret false
  end.

Definition createFeed : Action (option error) :=
  d <- get_data ;;
  let name := name d in
  let projectId := project_id d in
  let createFeed :=
    {| Feed_Id := None; Feed_Name := name; Feed_Project := None |} in
  r <- invoke (CreateFeedCall createFeed projectId)
              (CreateFeed clients createFeed projectId) ;;
  match r with
  | Err err => ret (Some err)
  | Ok _ => modify (Set_restored false) ;;; ret None
  end.

Definition restoreFeed : Action (option error) :=
  d <- get_data ;;
  let name := name d in
  let projectId := project_id d in
  err <- invoke (RestoreDeletedFeedCall name projectId restorePatch)
                (RestoreDeletedFeed clients name projectId restorePatch) ;;
  match err with
  | Some e => ret (Some e)
  | None => modify (Set_restored true) ;;; ret None
  end.

Definition resourceFeedCreate : Action (option error) :=
  d <- get_data ;;
  let name := name d in
  restorable <- isFeedRestorable ;;
  if restorable : bool then
    err <- restoreFeed ;;
    match err with
    | Some e =>
        ret (Some (ErrorfWrap "restoring feed. Name: %s, Error: %+v" [name] e))
    | None => resourceFeedRead
    end
  else
    err <- createFeed ;;
    match err with
    | Some e =>
        ret (Some (ErrorfWrap "creating new feed. Name: %s, Error: %+v" [name] e))
    | None => resourceFeedRead
    end.

Definition resourceFeedUpdate : Action (option error) :=
  d <- get_data ;;
  let name := name d in
  let projectId := project_id d in
  r <- invoke (UpdateFeedCall Build_FeedUpdate name projectId)
              (UpdateFeed clients Build_FeedUpdate name projectId) ;;
  match r with
  | Err err => ret (Some err)
  | Ok _ => resourceFeedRead
  end.

Definition resourceFeedDelete : Action (option error) :=
  d <- get_data ;;
  let name := name d in
  let projectId := project_id d in
  let permanentDelete := permanent_delete d in
  err <- invoke (DeleteFeedCall name projectId)
                (DeleteFeed clients name projectId) ;;
  match err with
  | Some e => ret (Some e)
  | None =>
      if permanentDelete then
        err <- invoke (PermanentDeleteFeedCall name projectId)
                      (PermanentDeleteFeed clients name projectId) ;;
        match err with
        | Some e => ret (Some e)
        | None => modify (SetId "") ;;; ret None
        end
      else
        modify (SetId "") ;;; ret None
  end.
End WithClients.

End FeedResource.

(** ** Package feed: the feed permission resource *)

Module FeedPermissionResource.

Record ResourceData := {
  Id : string;
  feed_id : string;
  identity_descriptor : string;
  identity_id : string;
  role : string;
  project_id : string;
  display_name : string
}.

Definition SetId (v : string) (d : ResourceData) : ResourceData :=
  {| Id := v; feed_id := feed_id d;
     identity_descriptor := identity_descriptor d;
     identity_id := identity_id d; role := role d;
     project_id := project_id d; display_name := display_name d |}.

Definition Set_display_name (v : string) (d : ResourceData) : ResourceData :=
  {| Id := Id d; feed_id := feed_id d;
     identity_descriptor := identity_descriptor d;
     identity_id := identity_id d; role := role d;
     project_id := project_id d; display_name := v |}.

Definition Set_role (v : string) (d : ResourceData) : ResourceData :=
  {| Id := Id d; feed_id := feed_id d;
     identity_descriptor := identity_descriptor d;
     identity_id := identity_id d; role := v;
     project_id := project_id d; display_name := display_name d |}.

Definition Set_identity_descriptor (v : string) (d : ResourceData)
  : ResourceData :=
  {| Id := Id d; feed_id := feed_id d;
     identity_descriptor := v;
     identity_id := identity_id d; role := role d;
     project_id := project_id d; display_name := display_name d |}.

Definition Set_identity_id (v : string) (d : ResourceData) : ResourceData :=
  {| Id := Id d; feed_id := feed_id d;
     identity_descriptor := identity_descriptor d;
     identity_id := v; role := role d;
     project_id := project_id d; display_name := display_name d |}.

(** The message of the not-found error built by [getFeedPermission]. *)
Definition permissionNotFoundMessage (feedId identityDescriptor : string)
  : string :=
  ("error reading permission for Feed: " ++ feedId ++ " and Identity: "
     ++ identityDescriptor)%string.

(** The grant sent by Create and Update. *)
Definition grantOf (displayName role : string) (identityResponse : Identity)
  : FeedPermission :=
  {| DisplayName := Some displayName;
     IdentityDescriptor := Descriptor identityResponse;
     IdentityId := Some (Identity_Id identityResponse);
     Role := role |}.

(** The grant sent by Delete: only the descriptor and the role. *)
Definition revocationOf (identityResponse : Identity) : FeedPermission :=
  {| DisplayName := None;
     IdentityDescriptor := Descriptor identityResponse;
     IdentityId := None;
     Role := FeedRoleValues_None |}.

Section WithClients.
Context {G : Type} (clients : AggregatedClient G).

Definition Action (A : Type) : Type := M ResourceData G A.

Definition getIdentity : Action (result Identity) :=
  d <- get_data ;;
  let identityDescriptor := identity_descriptor d in
  storageKey <- invoke (GetStorageKeyCall identityDescriptor)
                       (GetStorageKey clients identityDescriptor) ;;
  match storageKey with
  | Err err => ret (Err err)
  | Ok storageKey =>
      response <- invoke (ReadIdentityCall (StorageKey_Value storageKey))
                         (ReadIdentity clients (StorageKey_Value storageKey)) ;;
      match response with
      | Err err => ret (Err err)
      | Ok response => ret (Ok response)
      end
  end.

Definition getFeedPermission
  : Action (option FeedPermission * option Identity * option error) :=
  d <- get_data ;;
  let feedId := feed_id d in
  let identityDescriptor := identity_descriptor d in
  let projectId := project_id d in
  identityResponse <- getIdentity ;;
  match identityResponse with
  | Err err => ret (None, None, Some err)
  | Ok identityResponse =>
      permissions <- invoke (GetFeedPermissionsCall feedId projectId)
                            (GetFeedPermissions clients feedId projectId) ;;
      match permissions with
      | Err err => ret (None, Some identityResponse, Some err)
      | Ok permissions =>
          match find (fun permission =>
                        String.eqb (IdentityDescriptor permission)
                                   (Descriptor identityResponse))
                     permissions with
          | Some permission =>
              ret (Some permission, Some identityResponse, None)
          | None =>
              ret (None, Some identityResponse,
                   Some (WrappedError (Some StatusNotFound)
                           (permissionNotFoundMessage feedId
                              identityDescriptor)))
          end
      end
  end.

Definition resourceFeedPermissionRead : Action (option error) :=
  d <- get_data ;;
  let identityDescriptor := identity_descriptor d in
  r <- getFeedPermission ;;
  let permission := fst (fst r) in
  let identityResponse := snd (fst r) in
  match snd r with
  | Some err =>
      if ResponseWasNotFound err then
        modify (SetId "") ;;; ret None
      else
        ret (Some (ErrorfWrap "error reading feed permission during read: %+v"
                     [] err))
  | None =>
      match permission with
      | Some permission =>
          match DisplayName permission with
          | Some n => modify (Set_display_name n)
          | None => ret tt
          end ;;;
          modify (Set_role (Role permission)) ;;;
          modify (Set_identity_descriptor identityDescriptor) ;;;
          identityResponse <- deref identityResponse ;;
          modify (Set_identity_id (Identity_Id identityResponse)) ;;;
          ret None
      | None => ret None
      end
  end.

Definition resourceFeedPermissionCreate : Action (option error) :=
  d <- get_data ;;
  let feedId := feed_id d in
  let role := role d in
  let projectId := project_id d in
  let displayName := display_name d in
  let identityDescriptor := identity_descriptor d in
  r <- getFeedPermission ;;
  let permission := fst (fst r) in
  let identityResponse := snd (fst r) in
  let afterLookup : Action (option error) :=
    match permission with
    | Some _ =>
        ret (Some (Errorf
                     "feed Permission for Feed : %s and Identity : %s already exists"
                     [feedId; identityDescriptor]))
    | None =>
        identityResponse <- deref identityResponse ;;
        let grants := [grantOf displayName role identityResponse] in
        r <- invoke (SetFeedPermissionsCall feedId projectId grants)
                    (SetFeedPermissions clients feedId projectId grants) ;;
        match r with
        | Err err =>
            ret (Some (ErrorfWrap
                         "creating feed Permission for Feed : %s and Identity : %s, Error: %+v"
                         [feedId; identityDescriptor] err))
        | Ok _ =>
            id <- ambient (NewUUID clients) ;;
            modify (SetId ("fp-" ++ id)%string) ;;;
            resourceFeedPermissionRead
        end
    end in
  match snd r with
  | Some err =>
      if ResponseWasNotFound err then afterLookup
      else
        ret (Some (ErrorfWrap
                     "creating feed Permission for Feed : %s and Identity : %s, Error: %+v"
                     [feedId; identityDescriptor] err))
  | None => afterLookup
  end.

Definition resourceFeedPermissionUpdate : Action (option error) :=
  d <- get_data ;;
  let feedId := feed_id d in
  let identityDescriptor := identity_descriptor d in
  let role := role d in
  let projectId := project_id d in
  let displayName := display_name d in
  r <- getFeedPermission ;;
  let identityResponse := snd (fst r) in
  match snd r with
  | Some err =>
      ret (Some (ErrorfWrap "error reading feed permission during update: %+v"
                   [] err))
  | None =>
      identityResponse <- deref identityResponse ;;
      let grants := [grantOf displayName role identityResponse] in
      r <- invoke (SetFeedPermissionsCall feedId projectId grants)
                  (SetFeedPermissions clients feedId projectId grants) ;;
      match r with
      | Err err =>
          ret (Some (ErrorfWrap
                       "updating feed Permission for Feed : %s and Identity : %s, Error: %+v"
                       [feedId; identityDescriptor] err))
      | Ok _ => resourceFeedPermissionRead
      end
  end.

Definition resourceFeedPermissionDelete : Action (option error) :=
  d <- get_data ;;
  let feedId := feed_id d in
  let identityDescriptor := identity_descriptor d in
  let projectId := project_id d in
  identityResponse <- getIdentity ;;
  match identityResponse with
  | Err err =>
      ret (Some (ErrorfWrap
                   "deleting feed Permission for Feed : %s and Identity : %s, Error: %+v"
                   [feedId; identityDescriptor] err))
  | Ok identityResponse =>
      let grants := [revocationOf identityResponse] in
      r <- invoke (SetFeedPermissionsCall feedId projectId grants)
                  (SetFeedPermissions clients feedId projectId grants) ;;
      match r with
      | Err err =>
          ret (Some (ErrorfWrap
                       "deleting feed Permission for Feed : %s and Identity : %s, Error: %+v"
                       [feedId; identityDescriptor] err))
      | Ok _ => modify (SetId "") ;;; ret None
      end
  end.
End WithClients.

End FeedPermissionResource.

(** ** Package audit: common.go *)

Module AuditResource.

(** [time.Duration] counts nanoseconds. *)
Definition Second : Z := 1000000000.
Definition Minute : Z := 60 * Second.

Record ResourceData := {
  Id : string;
  days_to_backfill : Z;
  enabled : bool;
  name : string;
  (* d.Timeout(schema.TimeoutCreate) *)
  Timeout_Create : Z
}.

(** The default of [Timeouts.Create] in [genBaseAuditStreamResource]. *)
Definition DefaultTimeout_Create : Z := 10 * Minute.

Definition SetId (v : string) (d : ResourceData) : ResourceData :=
  {| Id := v; days_to_backfill := days_to_backfill d; enabled := enabled d;
     name := name d; Timeout_Create := Timeout_Create d |}.

Definition Set_days_to_backfill (v : Z) (d : ResourceData) : ResourceData :=
  {| Id := Id d; days_to_backfill := v; enabled := enabled d;
     name := name d; Timeout_Create := Timeout_Create d |}.

Definition Set_enabled (v : bool) (d : ResourceData) : ResourceData :=
  {| Id := Id d; days_to_backfill := days_to_backfill d; enabled := v;
     name := name d; Timeout_Create := Timeout_Create d |}.

Definition Set_name (v : string) (d : ResourceData) : ResourceData :=
  {| Id := Id d; days_to_backfill := days_to_backfill d; enabled := enabled d;
     name := v; Timeout_Create := Timeout_Create d |}.

Definition errMsgUpdateAuditStream : string :=
  "Error updating audit stream in Azure DevOps: %+v".

Definition inStates (state : string) (states : list string) : bool :=
  existsb (String.eqb state) states.
Arguments inStates : simpl never.

(** The pending and the target states of the wait in [createAuditStream]. *)
Definition pendingStates : list string :=
  [AuditStreamStatusValues FBackfilling].

Definition targetStates : list string :=
  [AuditStreamStatusValues FEnabled;
   AuditStreamStatusValues FDisabledByUser;
   AuditStreamStatusValues FDisabledBySystem].

Section WithClients.
Context {G : Type} (clients : AggregatedClient G).

Definition Action (A : Type) : Type := M ResourceData G A.

Definition flatFunc : Type := AuditStream -> Z -> bool -> Action unit.
Definition expandFunc : Type := Action (AuditStream * Z * bool).

(** [resource.StateRefreshFunc]: the refreshed object, its state and an
    error. *)
Definition StateRefreshFunc : Type :=
  Action (option AuditStream * string * option error).

Record StateChangeConf := {
  ContinuousTargetOccurence : nat;
  Delay : Z;
  MinTimeout : Z;
  Pending : list string;
  Target : list string;
  Refresh : StateRefreshFunc;
  Timeout : Z
}.

(** Modelled from the spec: [resource.StateChangeConf.WaitForState]
    belongs to the plugin SDK, outside the embedded source files; its
    three parts below follow the stabilization polling of section 4.3.
    After the fixed initial delay the entity is re-read, the reads being the
    minimum inter-poll interval apart; a read whose status is in the target
    set ends the wait with success once it has occurred the required number
    of consecutive times (here a single one); while the status is in the
    pending set the wait goes on; exceeding the overall timeout is an
    error.  Time is logical: a read takes none, so the budget of the wait is
    the number of reads that start before the timeout, the first one at
    [Delay], the following ones [MinTimeout] apart.  A failing read, or a
    status in neither set, ends the wait with an error. *)
Definition pollBudget (conf : StateChangeConf) : nat :=
  if Z.ltb (Delay conf) (Timeout conf) then
    S (Z.to_nat ((Timeout conf - Delay conf - 1) / MinTimeout conf))
  else 0%nat.

(** Modelled from the spec: the polling loop of [WaitForState], see
    [pollBudget]. *)
Fixpoint pollLoop (conf : StateChangeConf) (budget occurrences : nat)
  (lastState : string) : Action (result (option AuditStream)) :=
  match budget with
  | O => ret (Err (TimeoutError lastState (Target conf)))
  | S budget' =>
      r <- Refresh conf ;;
      let res := fst (fst r) in
      let currentState := snd (fst r) in
      match snd r with
      | Some err => ret (Err err)
      | None =>
          if inStates currentState (Target conf) then
            if Nat.leb (ContinuousTargetOccurence conf) (S occurrences) then
              ret (Ok res)
            else pollLoop conf budget' (S occurrences) currentState
          else if inStates currentState (Pending conf) then
            pollLoop conf budget' 0%nat currentState
          else
            ret (Err (UnexpectedStateError currentState (Target conf)))
      end
  end.

(** Modelled from the spec: [WaitForState] is the polling loop run with
    the budget of the configuration, see [pollBudget]. *)
Definition WaitForState (conf : StateChangeConf)
  : Action (result (option AuditStream)) :=
  pollLoop conf (pollBudget conf) 0%nat "".

(** [doBaseExpansion]: a parse failure of the ID is expected when the ID
    is not set yet. *)
Definition doBaseExpansion : expandFunc :=
  d <- get_data ;;
  let auditStreamId :=
    match Atoi (Id d) with
    | Ok parsedId => Some parsedId
    | Err _ => None
    end in
  let daysToBackfill := days_to_backfill d in
  let enabled := enabled d in
  let auditStream :=
    {| AuditStream_DisplayName := None;
       AuditStream_Id := auditStreamId;
       AuditStream_Status := None |} in
  ret (auditStream, daysToBackfill, enabled).

Definition doBaseFlattening : flatFunc :=
  fun auditStream daysToBackfill enabled =>
    id <- deref (AuditStream_Id auditStream) ;;
    modify (SetId (Itoa id)) ;;;
    modify (Set_days_to_backfill daysToBackfill) ;;;
    modify (Set_enabled enabled) ;;;
    modify (Set_name (match AuditStream_DisplayName auditStream with
                      | Some n => n | None => "" end)).

Definition readAuditStream (streamId : Z) : Action (result AuditStream) :=
  invoke (QueryStreamByIdCall streamId) (QueryStreamById clients streamId).

Definition updateAuditStream (stream : AuditStream)
  : Action (result AuditStream) :=
  invoke (UpdateStreamCall stream) (UpdateStream clients stream).

Definition deleteAuditStream (streamId : Z) : Action (option error) :=
  invoke (DeleteStreamCall streamId) (DeleteStream clients streamId).

Definition readStreamStatus (streamId : Z) : StateRefreshFunc :=
  r <- readAuditStream streamId ;;
  match r with
  | Err err => ret (None, AuditStreamStatusValues FUnknown, Some err)
  | Ok auditStream =>
      status <- deref (AuditStream_Status auditStream) ;;
      ret (Some auditStream, deref_status status, None)
  end.

(** The [stateConf] of [createAuditStream]. *)
Definition stateConf (streamId : Z) (timeoutSeconds : Z) : StateChangeConf :=
  {| ContinuousTargetOccurence := 1;
     Delay := 5 * Second;
     MinTimeout := 10 * Second;
     Pending := pendingStates;
     Target := targetStates;
     Refresh := readStreamStatus streamId;
     Timeout := timeoutSeconds |}.

Definition createAuditStream (stream : AuditStream) (daysToBackfill : Z)
  (timeoutSeconds : Z) : Action (result AuditStream) :=
  r <- invoke (CreateStreamCall stream daysToBackfill)
              (CreateStream clients stream daysToBackfill) ;;
  match r with
  | Err err => ret (Err err)
  | Ok createdAuditStream =>
      streamId <- deref (AuditStream_Id createdAuditStream) ;;
      w <- WaitForState (stateConf streamId timeoutSeconds) ;;
      match w with
      | Err err =>
          ret (Err (ErrorfWrap " waiting for auditstream ready. %v " [] err))
      | Ok _ => ret (Ok createdAuditStream)
      end
  end.

Definition setStreamStatusState (stream : AuditStream) (enabled : bool)
  : Action (result AuditStream) :=
  let streamStatus :=
    if negb enabled then Some (AddrOfValues FDisabledByUser)
    else Some (AddrOfValues FEnabled) in
  if negb (ptr_eqb (AuditStream_Status stream) streamStatus) then
    invoke (UpdateStatusCall (AuditStream_Id stream) streamStatus)
           (UpdateStatus clients (AuditStream_Id stream) streamStatus)
  else
    ret (Ok stream).

Definition genAuditStreamReadFunc (flatFunc : flatFunc)
  : Action (option error) :=
  d <- get_data ;;
  match Atoi (Id d) with
  | Err err =>
      ret (Some (ErrorfWrap
                   "Error parsing the audit stream ID from the Terraform resource data: %v"
                   [] err))
  | Ok streamId =>
      let daysToBackfill := days_to_backfill d in
      let enabled := enabled d in
      r <- readAuditStream streamId ;;
      match r with
      | Err err =>
          if ResponseWasNotFound err then
            modify (SetId "") ;;; ret None
          else
            ret (Some (ErrorfWrap
                         "Error looking up audit stream with ID %d. Error: %v"
                         [Itoa streamId] err))
      | Ok auditStream =>
          match AuditStream_Id auditStream with
          | None => modify (SetId "") ;;; ret None
          | Some _ => flatFunc auditStream daysToBackfill enabled ;;; ret None
          end
      end
  end.

Definition genAuditStreamCreateFunc (flatFunc : flatFunc)
  (expandFunc : expandFunc) : Action (option error) :=
  e <- expandFunc ;;
  let auditStream := fst (fst e) in
  let daysToBackfill := snd (fst e) in
  let enabled := snd e in
  d <- get_data ;;
  r <- createAuditStream auditStream daysToBackfill (Timeout_Create d) ;;
  match r with
  | Err err =>
      ret (Some (ErrorfWrap "Error creating audit stream in Azure DevOps: %+v"
                   [] err))
  | Ok createdAuditStream =>
      r <- setStreamStatusState createdAuditStream enabled ;;
      match r with
      | Err err => ret (Some (ErrorfWrap errMsgUpdateAuditStream [] err))
      | Ok statefulStream =>
          id <- deref (AuditStream_Id statefulStream) ;;
          modify (SetId (Itoa id)) ;;;
          genAuditStreamReadFunc flatFunc
      end
  end.

Definition genAuditStreamUpdateFunc (flatFunc : flatFunc)
  (expandFunc : expandFunc) : Action (option error) :=
  e <- expandFunc ;;
  let auditStream := fst (fst e) in
  let daysToBackfill := snd (fst e) in
  let enabled := snd e in
  r <- updateAuditStream auditStream ;;
  match r with
  | Err err => ret (Some (ErrorfWrap errMsgUpdateAuditStream [] err))
  | Ok updatedAuditStream =>
      r <- setStreamStatusState updatedAuditStream enabled ;;
      match r with
      | Err err => ret (Some (ErrorfWrap errMsgUpdateAuditStream [] err))
      | Ok statefulStream =>
          flatFunc statefulStream daysToBackfill enabled ;;;
          genAuditStreamReadFunc flatFunc
      end
  end.

Definition genAuditStreamDeleteFunc : Action (option error) :=
  d <- get_data ;;
  match Atoi (Id d) with
  | Err err => ret (Some err)
  | Ok streamId =>
      err <- deleteAuditStream streamId ;;
      match err with
      | Some err =>
          ret (Some (ErrorfWrap
                       "Error deleting audit stream in Azure DevOps: %+v"
                       [] err))
      | None => ret None
      end
  end.
(** *** Scripts of status reads

    What the status reads of a stream answer, read after read, from a
    given state of the remote. *)

(** The state of the remote after [n] status reads. *)
Fixpoint afterReads (n : nat) (streamId : Z) (g : G) : G :=
  match n with
  | O => g
  | S k => afterReads k streamId (snd (QueryStreamById clients streamId g))
  end.

(** The next status read answers with a pending status. *)
Definition isPendingRead (streamId : Z) (g : G) : Prop :=
  exists auditStream status,
    fst (QueryStreamById clients streamId g) = Ok auditStream /\
    AuditStream_Status auditStream = Some status /\
    deref_status status = AuditStreamStatusValues FBackfilling.

(** The next status read answers with a target status. *)
Definition isTargetRead (streamId : Z) (g : G) : Prop :=
  exists auditStream status,
    fst (QueryStreamById clients streamId g) = Ok auditStream /\
    AuditStream_Status auditStream = Some status /\
    inStates (deref_status status) targetStates = true.

(** The status reads answer pending [n] times and then a target status. *)
Definition pendingThenTarget (n : nat) (streamId : Z) (g : G) : Prop :=
  (forall k, (k < n)%nat -> isPendingRead streamId (afterReads k streamId g)) /\
  isTargetRead streamId (afterReads n streamId g).

(** The status reads never leave the pending status. *)
Definition neverLeavesPending (streamId : Z) (g : G) : Prop :=
  forall k, isPendingRead streamId (afterReads k streamId g).


End WithClients.

End AuditResource.

(** ** Package memberentitlementmanagement: resource_group_entitlement.go *)

Module GroupEntitlementResource.

Record ResourceData := {
  Id : string;
  display_name : string;
  principal_name : string;
  origin_id : string;
  origin : string;
  account_license_type : string;
  licensing_source : string;
  descriptor : string
}.

Definition SetId (v : string) (d : ResourceData) : ResourceData :=
  {| Id := v; display_name := display_name d;
     principal_name := principal_name d; origin_id := origin_id d;
     origin := origin d; account_license_type := account_license_type d;
     licensing_source := licensing_source d; descriptor := descriptor d |}.

(** The [d.Set] calls of [flattenGroupEntitlement] that follow [d.SetId]. *)
Definition setGroupFields (descriptor : string)
  (groupEntitlement : GroupEntitlement) (d : ResourceData) : ResourceData :=
  let group := Group groupEntitlement in
  {| Id := Id d;
     display_name := Group_DisplayName group;
     principal_name := Group_PrincipalName group;
     origin_id := match Group_OriginId group with
                  | Some o => o
                  | None => origin_id d
                  end;
     origin := Group_Origin group;
     account_license_type := AccountLicenseType (LicenseRule groupEntitlement);
     licensing_source := LicensingSource (LicenseRule groupEntitlement);
     descriptor := descriptor |}.

Definition backslash : ascii := ascii_of_nat 92.

(** [strings.Contains] for a one-character separator. *)
Fixpoint Contains (s : string) (sep : ascii) : bool :=
  match s with
  | EmptyString => false
  | String c rest => (Ascii.eqb c sep || Contains rest sep)%bool
  end.

(** [strings.Split] for a one-character separator. *)
Fixpoint Split (s : string) (sep : ascii) : list string :=
  match s with
  | EmptyString => [EmptyString]
  | String c rest =>
      if Ascii.eqb c sep then EmptyString :: Split rest sep
      else
        match Split rest sep with
        | h :: t => String c h :: t
        | [] => [String c EmptyString]
        end
  end.

Definition joinErrors (lines : list string) : option string :=
  match lines with
  | [] => None
  | first :: rest =>
      Some (fold_left
              (fun agg elem =>
                 String.append agg (String (ascii_of_nat 10) elem))
              rest first)
  end.

(** [getGroupEntitlementAPIErrorMessage]: the errors of the failed
    operations, one per line.  Aggregating an empty sequence yields nil,
    whose conversion to a string panics. *)
Definition getGroupEntitlementAPIErrorMessage
  (operationResults : list GroupOperationResult) : option string :=
  match operationResults with
  | [] => Some "Unknown API error"
  | _ =>
      joinErrors
        (map (fun err : string * string =>
                ("(" ++ fst err ++ ") " ++ snd err)%string)
           (flat_map (fun ueo =>
                        match Errors ueo with
                        | None => [("0000", "Unknown API error")]
                        | Some errors => errors
                        end)
              (filter (fun ueo => negb (IsSuccess ueo)) operationResults)))
  end.

Section WithClients.
Context {G : Type} (clients : AggregatedClient G).

(** The converters of [utils/converter] and [uuid.Parse] are outside the
    embedded source files; the adapter is parameterised by them. *)
Variable converter_AccountLicenseType : string -> result string.
Variable converter_AccountLicensingSource : string -> result string.
Variable uuid_Parse : string -> result string.

Definition Action (A : Type) : Type := M ResourceData G A.

Definition readGroupEntitlement (id : string)
  : Action (result GroupEntitlement) :=
  invoke (GetGroupEntitlementCall id) (GetGroupEntitlement clients id).

Definition flattenGroupEntitlement (groupEntitlement : GroupEntitlement)
  : Action unit :=
  id <- deref (GroupEntitlement_Id groupEntitlement) ;;
  modify (SetId id) ;;;
  descriptor <- deref (Group_Descriptor (Group groupEntitlement)) ;;
  modify (setGroupFields descriptor groupEntitlement).

Definition expandGroupEntitlement : Action (result GroupEntitlement) :=
  d <- get_data ;;
  let origin := origin d in
  let originID := origin_id d in
  let principalName := principal_name d in
  displayName <-
    (if (Nat.ltb 0 (String.length principalName)
         && Contains principalName backslash)%bool
     then deref (nth_error (Split principalName backslash) 1)
     else ret (display_name d)) ;;
  if (Nat.ltb 0 (String.length originID)
      && Nat.ltb 0 (String.length principalName))%bool then
    ret (Err (Errorf
                "Both origin_id and principal_name set. You can not use both: origin_id: %s principal_name %s"
                [originID; principalName]))
  else if (Nat.eqb (String.length originID) 0
           && Nat.eqb (String.length principalName) 0
           && Nat.eqb (String.length displayName) 0)%bool then
    ret (Err (Errorf
                "Neither origin_id and principal_name set. Use origin_id or principal_name"
                []))
  else if (Nat.ltb 0 (String.length originID)
           && Nat.eqb (String.length origin) 0)%bool then
    ret (Err (Errorf "Origin_id requires an origin to be set" []))
  else
    match converter_AccountLicenseType (account_license_type d) with
    | Err err => ret (Err err)
    | Ok accountLicenseType =>
        match converter_AccountLicensingSource (licensing_source d) with
        | Err err => ret (Err err)
        | Ok licensingSource =>
            ret (Ok {| GroupEntitlement_Id := None;
                       LicenseRule :=
                         {| AccountLicenseType := accountLicenseType;
                            LicensingSource := licensingSource |};
                       Group :=
                         {| Group_Descriptor := None;
                            Group_Origin := origin;
                            Group_OriginId := Some originID;
                            Group_DisplayName := displayName;
                            Group_PrincipalName := principalName;
                            Group_SubjectKind := "group" |} |})
        end
    end.

Definition addGroupEntitlement (groupEntitlement : GroupEntitlement)
  : Action (result GroupEntitlement) :=
  r <- invoke (AddGroupEntitlementCall groupEntitlement)
              (AddGroupEntitlement clients groupEntitlement) ;;
  match r with
  | Err err => ret (Err err)
  | Ok groupEntitlementsPostResponse =>
      let result := Results groupEntitlementsPostResponse in
      first <- deref (nth_error result 0) ;;
      if negb (IsSuccess first) then
        let opResults :=
          match Errors first with
          | Some _ => [first]
          | None => []
          end in
        message <- deref (getGroupEntitlementAPIErrorMessage opResults) ;;
        ret (Err (Errorf "Adding group entitlement: %s" [message]))
      else
        ret (Ok (Result first))
  end.

Definition resourceGroupEntitlementRead : Action (option error) :=
  d <- get_data ;;
  let groupEntitlementID := Id d in
  match uuid_Parse groupEntitlementID with
  | Err err =>
      ret (Some (ErrorfWrap "Error parsing GroupEntitlementID: %s. %v"
                   [groupEntitlementID] err))
  | Ok id =>
      r <- readGroupEntitlement id ;;
      match r with
      | Err err =>
          if ResponseWasNotFound err then
            modify (SetId "") ;;; ret None
          else
            ret (Some (ErrorfWrap "Error reading group entitlement: %v"
                         [] err))
      | Ok groupEntitlement =>
          flattenGroupEntitlement groupEntitlement ;;; ret None
      end
  end.

Definition resourceGroupEntitlementCreate : Action (option error) :=
  r <- expandGroupEntitlement ;;
  match r with
  | Err err =>
      ret (Some (ErrorfWrap "Creating group entitlement: %v" [] err))
  | Ok groupEntitlement =>
      r <- addGroupEntitlement groupEntitlement ;;
      match r with
      | Err err =>
          ret (Some (ErrorfWrap "Creating group entitlement: %v" [] err))
      | Ok addedGroupEntitlement =>
          flattenGroupEntitlement addedGroupEntitlement ;;;
          resourceGroupEntitlementRead
      end
  end.
End WithClients.

End GroupEntitlementResource.

(** ** Observers of the call log *)

Definition isCreateFeed (c : Call) : bool :=
  match c with CreateFeedCall _ _ => true | _ => false end.

Definition isRestoreDeletedFeed (c : Call) : bool :=
  match c with RestoreDeletedFeedCall _ _ _ => true | _ => false end.

Definition isPermanentDeleteFeed (c : Call) : bool :=
  match c with PermanentDeleteFeedCall _ _ => true | _ => false end.

Definition isDeleteFeed (c : Call) : bool :=
  match c with DeleteFeedCall _ _ => true | _ => false end.

Definition isSetFeedPermissions (c : Call) : bool :=
  match c with SetFeedPermissionsCall _ _ _ => true | _ => false end.

Definition isGetFeedPermissions (c : Call) : bool :=
  match c with GetFeedPermissionsCall _ _ => true | _ => false end.

Definition isCreateStream (c : Call) : bool :=
  match c with CreateStreamCall _ _ => true | _ => false end.

Definition isQueryStreamById (c : Call) : bool :=
  match c with QueryStreamByIdCall _ => true | _ => false end.

Definition isUpdateStatus (c : Call) : bool :=
  match c with UpdateStatusCall _ _ => true | _ => false end.

(** ** A scripted remote

    The remote used to exercise the adapters on concrete scenarios: its
    state is the number of calls served so far, and a script maps the call
    and that number to the reply. *)

Module Scripted.

Inductive Reply : Type :=
| ReplyErr (e : error)
| ReplyAck
| ReplyNil
| ReplyFeed (f : Feed)
| ReplyChange (c : FeedChange)
| ReplyPermissions (l : list FeedPermission)
| ReplyStorageKey (k : GraphStorageKeyResult)
| ReplyIdentity (i : Identity)
| ReplyStream (a : AuditStream)
| ReplyOperation (o : GroupEntitlementOperationReference)
| ReplyEntitlement (e : GroupEntitlement).

Definition Script : Type := Call -> nat -> Reply.

Definition unscripted {A} : result A := Err (ErrorString "unscripted reply").

Definition asAck (r : Reply) : option error :=
  match r with
  | ReplyAck => None
  | ReplyErr e => Some e
  | _ => Some (ErrorString "unscripted reply")
  end.

Definition asFeedOpt (r : Reply) : result (option Feed) :=
  match r with
  | ReplyFeed f => Ok (Some f)
  | ReplyNil => Ok None
  | ReplyErr e => Err e
  | _ => unscripted
  end.

Definition asFeed (r : Reply) : result Feed :=
  match r with ReplyFeed f => Ok f | ReplyErr e => Err e | _ => unscripted end.

Definition asChange (r : Reply) : result FeedChange :=
  match r with ReplyChange c => Ok c | ReplyErr e => Err e | _ => unscripted end.

Definition asPermissions (r : Reply) : result (list FeedPermission) :=
  match r with
  | ReplyPermissions l => Ok l | ReplyErr e => Err e | _ => unscripted
  end.

Definition asStorageKey (r : Reply) : result GraphStorageKeyResult :=
  match r with
  | ReplyStorageKey k => Ok k | ReplyErr e => Err e | _ => unscripted
  end.

Definition asIdentity (r : Reply) : result Identity :=
  match r with ReplyIdentity i => Ok i | ReplyErr e => Err e | _ => unscripted end.

Definition asStream (r : Reply) : result AuditStream :=
  match r with ReplyStream a => Ok a | ReplyErr e => Err e | _ => unscripted end.

Definition asOperation (r : Reply) : result GroupEntitlementOperationReference :=
  match r with
  | ReplyOperation o => Ok o | ReplyErr e => Err e | _ => unscripted
  end.

Definition asEntitlement (r : Reply) : result GroupEntitlement :=
  match r with
  | ReplyEntitlement e => Ok e | ReplyErr e => Err e | _ => unscripted
  end.

Definition serve {A} (script : Script) (decode : Reply -> A) (c : Call)
  (n : nat) : A * nat :=
  (decode (script c n), S n).

Definition client (script : Script) : AggregatedClient nat := {|
  GetFeed := fun f p => serve script asFeedOpt (GetFeedCall f p);
  CreateFeed := fun f p => serve script asFeed (CreateFeedCall f p);
  UpdateFeed := fun u f p => serve script asFeed (UpdateFeedCall u f p);
  DeleteFeed := fun f p => serve script asAck (DeleteFeedCall f p);
  PermanentDeleteFeed :=
    fun f p => serve script asAck (PermanentDeleteFeedCall f p);
  GetFeedChange := fun f p => serve script asChange (GetFeedChangeCall f p);
  RestoreDeletedFeed :=
    fun f p j => serve script asAck (RestoreDeletedFeedCall f p j);
  GetFeedPermissions :=
    fun f p => serve script asPermissions (GetFeedPermissionsCall f p);
  SetFeedPermissions :=
    fun f p l => serve script asPermissions (SetFeedPermissionsCall f p l);
  GetStorageKey := fun d => serve script asStorageKey (GetStorageKeyCall d);
  ReadIdentity := fun i => serve script asIdentity (ReadIdentityCall i);
  CreateStream := fun a n => serve script asStream (CreateStreamCall a n);
  QueryStreamById := fun i => serve script asStream (QueryStreamByIdCall i);
  UpdateStream := fun a => serve script asStream (UpdateStreamCall a);
  DeleteStream := fun i => serve script asAck (DeleteStreamCall i);
  UpdateStatus := fun i st => serve script asStream (UpdateStatusCall i st);
  AddGroupEntitlement :=
    fun e => serve script asOperation (AddGroupEntitlementCall e);
  GetGroupEntitlement :=
    fun i => serve script asEntitlement (GetGroupEntitlementCall i);
  NewUUID := fun n => ("6ba7b810-9dad-11d1-80b4-00c04fd430c8", n)
|}.

End Scripted.

(** ** Scenarios *)

Module Scenario.
Import Scripted.

Definition serverError : error :=
  WrappedError (Some 500%Z) "internal server error".

Definition notFoundError : error :=
  WrappedError (Some 404%Z) "not found".

(** A feed that is declared for the first time. *)
Definition feedA : FeedResource.ResourceData :=
  {| FeedResource.Id := "";
     FeedResource.name := "feedA";
     FeedResource.project_id := "";
     FeedResource.permanent_delete := true;
     FeedResource.restored := false |}.

Definition remoteFeedA : Feed :=
  {| Feed_Id := Some "0f7e9a52-3c1b-4d6e-8a2f-5b9c7d1e4f60";
     Feed_Name := "feedA";
     Feed_Project := None |}.

(** The latest change of the feed is a soft-delete, and the restore call
    is refused by the remote. *)
Definition restoreRefused : Script :=
  fun c _ =>
    match c with
    | GetFeedChangeCall _ _ =>
        ReplyChange {| ChangeType := ChangeTypeValues_Delete |}
    | RestoreDeletedFeedCall _ _ _ => ReplyErr serverError
    | _ => ReplyErr (ErrorString "unexpected call")
    end.

(** The latest change of the feed is a soft-delete and every call
    succeeds. *)
Definition softDeleted : Script :=
  fun c _ =>
    match c with
    | GetFeedChangeCall _ _ =>
        ReplyChange {| ChangeType := ChangeTypeValues_Delete |}
    | RestoreDeletedFeedCall _ _ _ => ReplyAck
    | GetFeedCall _ _ => ReplyFeed remoteFeedA
    | _ => ReplyErr (ErrorString "unexpected call")
    end.

(** The change-record query fails for a reason other than not-found. *)
Definition changeQueryBroken : Script :=
  fun c _ =>
    match c with
    | GetFeedChangeCall _ _ => ReplyErr serverError
    | CreateFeedCall _ _ => ReplyFeed remoteFeedA
    | GetFeedCall _ _ => ReplyFeed remoteFeedA
    | _ => ReplyErr (ErrorString "unexpected call")
    end.

(** Soft-delete succeeds, the purge is refused. *)
Definition purgeRefused : Script :=
  fun c _ =>
    match c with
    | DeleteFeedCall _ _ => ReplyAck
    | PermanentDeleteFeedCall _ _ => ReplyErr serverError
    | _ => ReplyErr (ErrorString "unexpected call")
    end.

Definition existingFeedA : FeedResource.ResourceData :=
  FeedResource.SetId "0f7e9a52-3c1b-4d6e-8a2f-5b9c7d1e4f60" feedA.

(** The same feed, declared without permanent delete. *)
Definition keptFeedA : FeedResource.ResourceData :=
  {| FeedResource.Id := "0f7e9a52-3c1b-4d6e-8a2f-5b9c7d1e4f60";
     FeedResource.name := "feedA";
     FeedResource.project_id := "";
     FeedResource.permanent_delete := false;
     FeedResource.restored := false |}.

(** Every call is answered with not-found. *)
Definition gone : Script := fun _ _ => ReplyErr notFoundError.

(** Every call is answered with a server error. *)
Definition broken : Script := fun _ _ => ReplyErr serverError.

(** An audit stream known under the identifier 7. *)
Definition stream7 : AuditResource.ResourceData :=
  {| AuditResource.Id := "7";
     AuditResource.days_to_backfill := 0;
     AuditResource.enabled := true;
     AuditResource.name := "";
     AuditResource.Timeout_Create := AuditResource.DefaultTimeout_Create |}.

(** An audit stream that is declared for the first time. *)
Definition newStream : AuditResource.ResourceData :=
  {| AuditResource.Id := "";
     AuditResource.days_to_backfill := 0;
     AuditResource.enabled := true;
     AuditResource.name := "";
     AuditResource.Timeout_Create := AuditResource.DefaultTimeout_Create |}.

Definition alice : Identity :=
  {| Descriptor := "Microsoft.IdentityModel.Claims.ClaimsIdentity;alice";
     Identity_Id := "3b5f0c42-9a1e-4c7d-b2f6-8d0e1a2b3c4d" |}.

Definition aliceGrant : FeedPermission :=
  {| DisplayName := Some "Alice";
     IdentityDescriptor := Descriptor alice;
     IdentityId := Some (Identity_Id alice);
     Role := FeedRoleValues_Reader |}.

(** A grant for alice on a feed, as declared. *)
Definition grantForAlice : FeedPermissionResource.ResourceData :=
  {| FeedPermissionResource.Id := "";
     FeedPermissionResource.feed_id := "0f7e9a52-3c1b-4d6e-8a2f-5b9c7d1e4f60";
     FeedPermissionResource.identity_descriptor := "aad.alice";
     FeedPermissionResource.identity_id := "";
     FeedPermissionResource.role := FeedRoleValues_Contributor;
     FeedPermissionResource.project_id := "";
     FeedPermissionResource.display_name := "Alice" |}.

(** The identity resolves and the feed already holds a grant for it. *)
Definition alreadyGranted : Script :=
  fun c _ =>
    match c with
    | GetStorageKeyCall _ =>
        ReplyStorageKey {| StorageKey_Value := Identity_Id alice |}
    | ReadIdentityCall _ => ReplyIdentity alice
    | GetFeedPermissionsCall _ _ => ReplyPermissions [aliceGrant]
    | SetFeedPermissionsCall _ _ l => ReplyPermissions l
    | _ => ReplyErr (ErrorString "unexpected call")
    end.

(** The identity resolves and the feed holds no grant. *)
Definition noGrant : Script :=
  fun c _ =>
    match c with
    | GetStorageKeyCall _ =>
        ReplyStorageKey {| StorageKey_Value := Identity_Id alice |}
    | ReadIdentityCall _ => ReplyIdentity alice
    | GetFeedPermissionsCall _ _ => ReplyPermissions []
    | SetFeedPermissionsCall _ _ l => ReplyPermissions l
    | _ => ReplyErr (ErrorString "unexpected call")
    end.

(** A group entitlement declared with both an origin id and a principal
    name. *)
Definition bothSet : GroupEntitlementResource.ResourceData :=
  {| GroupEntitlementResource.Id := "";
     GroupEntitlementResource.display_name := "";
     GroupEntitlementResource.principal_name := "[contoso]" ++
       String GroupEntitlementResource.backslash "Readers";
     GroupEntitlementResource.origin_id :=
       "a1b2c3d4-0000-4000-8000-1234567890ab";
     GroupEntitlementResource.origin := "aad";
     GroupEntitlementResource.account_license_type := "express";
     GroupEntitlementResource.licensing_source := "account";
     GroupEntitlementResource.descriptor := "" |}.

Definition acceptAll (s : string) : result string := Ok s.

Definition heapStream (addr : nat) (status : StatusField) : AuditStream :=
  {| AuditStream_DisplayName := Some "stream";
     AuditStream_Id := Some 7%Z;
     AuditStream_Status :=
       Some (HeapCell addr (AuditStreamStatusValues status)) |}.

(** The stream is created and the first [pending] status reads answer
    Backfilling, the following ones Enabled.  Every reply is decoded into
    fresh memory: the status cell of the reply to the call number [n] is the
    heap cell [n]. *)
Definition backfills (pending : nat) : Script :=
  fun c n =>
    match c with
    | CreateStreamCall _ _ => ReplyStream (heapStream n FBackfilling)
    | QueryStreamByIdCall _ =>
        if Nat.leb n pending then ReplyStream (heapStream n FBackfilling)
        else ReplyStream (heapStream n FEnabled)
    | UpdateStatusCall _ _ => ReplyStream (heapStream n FEnabled)
    | _ => ReplyErr (ErrorString "unexpected call")
    end.

(** The stream is created and stays in Backfilling for ever. *)
Definition stuck : Script :=
  fun c n =>
    match c with
    | CreateStreamCall _ _ => ReplyStream (heapStream n FBackfilling)
    | QueryStreamByIdCall _ => ReplyStream (heapStream n FBackfilling)
    | _ => ReplyErr (ErrorString "unexpected call")
    end.

(** The stream is created enabled and every read finds it enabled. *)
Definition enabledAtOnce : Script :=
  fun c n =>
    match c with
    | CreateStreamCall _ _ => ReplyStream (heapStream n FEnabled)
    | QueryStreamByIdCall _ => ReplyStream (heapStream n FEnabled)
    | UpdateStatusCall _ _ => ReplyStream (heapStream n FEnabled)
    | _ => ReplyErr (ErrorString "unexpected call")
    end.

(** The stream that [doBaseExpansion] builds for [newStream]. *)
Definition newStreamRequest : AuditStream :=
  {| AuditStream_DisplayName := None;
     AuditStream_Id := None;
     AuditStream_Status := None |}.

End Scenario.

From Stdlib Require DecimalPos DecimalZ.

(** ** Further scenarios *)

Module Cases.
Import Scripted.

(** The change query fails, the create call succeeds, and the read that
    follows answers not-found. *)
Definition vanishesAfterCreate : Script :=
  fun c _ =>
    match c with
    | GetFeedChangeCall _ _ => ReplyErr Scenario.notFoundError
    | CreateFeedCall _ _ => ReplyFeed Scenario.remoteFeedA
    | GetFeedCall _ _ => ReplyErr Scenario.notFoundError
    | _ => ReplyErr (ErrorString "unexpected call")
    end.

(** The feed of [Scenario.remoteFeedA] inside a project. *)
Definition projectFeed : Feed :=
  {| Feed_Id := Some "0f7e9a52-3c1b-4d6e-8a2f-5b9c7d1e4f60";
     Feed_Name := "feedA";
     Feed_Project :=
       Some {| ProjectReference_Id :=
                 "7c9e6679-7425-40de-944b-e07fc1f90ae7" |} |}.

Definition readsProjectFeed : Script :=
  fun c _ =>
    match c with
    | GetFeedCall _ _ => ReplyFeed projectFeed
    | _ => ReplyErr (ErrorString "unexpected call")
    end.

(** The stream is created enabled in the eyes of every read, and the
    status update is refused. *)
Definition statusUpdateRefused : Script :=
  fun c n =>
    match c with
    | CreateStreamCall _ _ => ReplyStream (Scenario.heapStream n FEnabled)
    | QueryStreamByIdCall _ => ReplyStream (Scenario.heapStream n FEnabled)
    | UpdateStatusCall _ _ => ReplyErr Scenario.serverError
    | _ => ReplyErr (ErrorString "unexpected call")
    end.

(** An audit stream whose stored identifier is not a number. *)
Definition oddStream : AuditResource.ResourceData :=
  {| AuditResource.Id := "seven";
     AuditResource.days_to_backfill := 3;
     AuditResource.enabled := false;
     AuditResource.name := "";
     AuditResource.Timeout_Create := AuditResource.DefaultTimeout_Create |}.

(** A stream whose status is the package-level constant, as a test double
    builds it. *)
Definition constantStream (status : StatusField) : AuditStream :=
  {| AuditStream_DisplayName := Some "stream";
     AuditStream_Id := Some 7%Z;
     AuditStream_Status := Some (AddrOfValues status) |}.

(** A group entitlement declared by its principal name only. *)
Definition byPrincipal : GroupEntitlementResource.ResourceData :=
  {| GroupEntitlementResource.Id := "";
     GroupEntitlementResource.display_name := "declared";
     GroupEntitlementResource.principal_name :=
       String.append "[contoso]"
         (String GroupEntitlementResource.backslash "Readers");
     GroupEntitlementResource.origin_id := "";
     GroupEntitlementResource.origin := "";
     GroupEntitlementResource.account_license_type := "express";
     GroupEntitlementResource.licensing_source := "account";
     GroupEntitlementResource.descriptor := "" |}.

(** The entitlement of the Readers group as the remote holds it. *)
Definition readersEntitlement : GroupEntitlement :=
  {| GroupEntitlement_Id := Some "9d2f0c11-5e3a-4b7c-8f6d-2a1b0c9e8d7f";
     LicenseRule :=
       {| AccountLicenseType := "express"; LicensingSource := "account" |};
     Group :=
       {| Group_Descriptor := Some "vssgp.Uy0xLTktMTU1MTM3NDI0NQ";
          Group_Origin := "aad";
          Group_OriginId := Some "a1b2c3d4-0000-4000-8000-1234567890ab";
          Group_DisplayName := "Readers";
          Group_PrincipalName :=
            String.append "[contoso]"
              (String GroupEntitlementResource.backslash "Readers");
          Group_SubjectKind := "group" |} |}.

(** A stored entitlement whose identifier the parser accepts. *)
Definition storedEntitlement : GroupEntitlementResource.ResourceData :=
  {| GroupEntitlementResource.Id := "9d2f0c11-5e3a-4b7c-8f6d-2a1b0c9e8d7f";
     GroupEntitlementResource.display_name := "";
     GroupEntitlementResource.principal_name := "";
     GroupEntitlementResource.origin_id := "";
     GroupEntitlementResource.origin := "";
     GroupEntitlementResource.account_license_type := "express";
     GroupEntitlementResource.licensing_source := "account";
     GroupEntitlementResource.descriptor := "" |}.

Definition entitlementFound : Script :=
  fun c _ =>
    match c with
    | GetGroupEntitlementCall _ => ReplyEntitlement readersEntitlement
    | _ => ReplyErr (ErrorString "unexpected call")
    end.

(** The remote answers the add call with an operation that did not
    succeed and carries no error list. *)
Definition operationFailed : Script :=
  fun c _ =>
    match c with
    | AddGroupEntitlementCall _ =>
        ReplyOperation
          {| Results :=
               [{| Errors := None; IsSuccess := false;
                   Result := readersEntitlement |}] |}
    | _ => ReplyErr (ErrorString "unexpected call")
    end.

(** What the encoder builds for [byPrincipal]. *)
Definition readersRequest : GroupEntitlement :=
  {| GroupEntitlement_Id := None;
     LicenseRule :=
       {| AccountLicenseType := "express"; LicensingSource := "account" |};
     Group :=
       {| Group_Descriptor := None;
          Group_Origin := "";
          Group_OriginId := Some "";
          Group_DisplayName := "Readers";
          Group_PrincipalName :=
            String.append "[contoso]"
              (String GroupEntitlementResource.backslash "Readers");
          Group_SubjectKind := "group" |} |}.

(** The remote answers the add call without any operation result. *)
Definition operationMissing : Script :=
  fun c _ =>
    match c with
    | AddGroupEntitlementCall _ => ReplyOperation {| Results := [] |}
    | _ => ReplyErr (ErrorString "unexpected call")
    end.

(** The identity resolves, the feed lists the grant, and setting a grant
    is refused. *)
Definition setRefused : Script :=
  fun c _ =>
    match c with
    | GetStorageKeyCall _ =>
        ReplyStorageKey {| StorageKey_Value := Identity_Id Scenario.alice |}
    | ReadIdentityCall _ => ReplyIdentity Scenario.alice
    | GetFeedPermissionsCall _ _ => ReplyPermissions [Scenario.aliceGrant]
    | SetFeedPermissionsCall _ _ _ => ReplyErr Scenario.serverError
    | _ => ReplyErr (ErrorString "unexpected call")
    end.

(** The identity resolves and the first revocation is accepted; once the
    grant is gone the remote answers a further revocation with not-found.
    The first Delete is served by the calls 0 to 2. *)
Definition revokeOnce : Script :=
  fun c n =>
    match c with
    | GetStorageKeyCall _ =>
        ReplyStorageKey {| StorageKey_Value := Identity_Id Scenario.alice |}
    | ReadIdentityCall _ => ReplyIdentity Scenario.alice
    | SetFeedPermissionsCall _ _ l =>
        if Nat.leb n 2 then ReplyPermissions l
        else ReplyErr Scenario.notFoundError
    | _ => ReplyErr (ErrorString "unexpected call")
    end.

End Cases.

(** * Properties *)

(** Symbolic execution of an adapter: unfold the monad and split on the
    replies of the remote. *)
Ltac exec :=
  unfold bind, get_data, invoke, ambient, ret, modify, panic, deref, start in *;
  simpl in *.

Ltac split_reply :=
  match goal with
  | |- context [match fst ?x with _ => _ end] => destruct (fst x) eqn:?
  | |- context [if ?b then _ else _] => destruct b eqn:?
  | |- context [match ?o with Some _ => _ | None => _ end] => destruct o eqn:?
  end; simpl in *.

(** ** Feeds *)

Section FeedProperties.
Import FeedResource.
Context {G : Type} (clients : AggregatedClient G).

(** [resourceFeedRead] logs [GetFeed] and nothing else, and never touches
    the [restored] attribute. *)
Lemma resourceFeedRead_frame (s : Session ResourceData G) :
  calls (snd (resourceFeedRead clients s)) =
    calls s ++ [GetFeedCall (name (data s)) (project_id (data s))] /\
  restored (data (snd (resourceFeedRead clients s))) = restored (data s).
Proof.
  unfold resourceFeedRead; exec.
  repeat split_reply; auto.
Qed.

(** C1 (amended). Restore or create: when the change-record query answers
    with a soft-delete, Create issues exactly one restore call, carrying
    the patch that replaces /isDeleted by false, and no create call; when
    that restore call succeeds [restored] is set to true, and when it fails
    the wrapped error is returned and [restored] is left as it was.  When
    the query fails or answers with another change type, Create issues
    exactly one create call and no restore call; when that create call
    succeeds [restored] is set to false, and when it fails the wrapped error
    is returned and [restored] is left as it was. *)
Theorem resourceFeedCreate_restore_or_create (d : ResourceData) (g : G) :
  let q := GetFeedChange clients (name d) (project_id d) g in
  let newFeed :=
    {| Feed_Id := None; Feed_Name := name d; Feed_Project := None |} in
  let out := resourceFeedCreate clients (start d g) in
  let log := calls (snd out) in
  let d' := data (snd out) in
  ((exists change,
       fst q = Ok change /\ ChangeType change = ChangeTypeValues_Delete) ->
   count_calls isRestoreDeletedFeed log = 1 /\
   count_calls isCreateFeed log = 0 /\
   In (RestoreDeletedFeedCall (name d) (project_id d) restorePatch) log /\
   match fst (RestoreDeletedFeed clients (name d) (project_id d)
                restorePatch (snd q)) with
   | None => restored d' = true
   | Some e =>
       fst out = Done (Some (ErrorfWrap "restoring feed. Name: %s, Error: %+v"
                               [name d] e)) /\
       restored d' = restored d
   end)
  /\
  ((forall change,
       fst q = Ok change -> ChangeType change <> ChangeTypeValues_Delete) ->
   count_calls isCreateFeed log = 1 /\
   count_calls isRestoreDeletedFeed log = 0 /\
   In (CreateFeedCall newFeed (project_id d)) log /\
   match fst (CreateFeed clients newFeed (project_id d) (snd q)) with
   | Ok _ => restored d' = false
   | Err e =>
       fst out = Done (Some (ErrorfWrap "creating new feed. Name: %s, Error: %+v"
                               [name d] e)) /\
       restored d' = restored d
   end).
Proof.
  intros q newFeed out log d'.
  subst q newFeed out log d'.
  unfold resourceFeedCreate, isFeedRestorable, restoreFeed, createFeed.
  exec.
  split.
  - intros [change [Hq Hdel]]. rewrite Hq. simpl. rewrite Hdel. simpl.
    split_reply.
    + repeat split; auto.
    + match goal with
      | |- context [resourceFeedRead clients ?s] =>
          destruct (resourceFeedRead_frame s) as [Hc Hd]
      end.
      simpl in *. rewrite Hc, Hd. unfold count_calls; simpl.
      repeat split; auto.
  - intros Hnot.
    destruct (fst (GetFeedChange clients (name d) (project_id d) g))
      as [change|e] eqn:Hq; simpl.
    1: assert (Hfalse :
         String.eqb (ChangeType change) ChangeTypeValues_Delete = false)
         by (apply String.eqb_neq; apply Hnot; reflexivity);
       rewrite Hfalse; simpl.
    all: split_reply.
    all: try (match goal with
      | |- context [resourceFeedRead clients ?s] =>
          destruct (resourceFeedRead_frame s) as [Hc Hd]
      end;
      simpl in *; rewrite Hc, Hd; unfold count_calls; simpl).
    all: repeat split; auto.
Qed.

(** C10. Any failure of the change-record query, whatever the error, makes
    [isFeedRestorable] answer false; Create then goes on with a plain
    create call and the query error does not show in its outcome, which is
    the outcome of the create call followed by the read. *)
Theorem resourceFeedCreate_swallows_query_error
  (d : ResourceData) (g : G) (e : error) :
  let q := GetFeedChange clients (name d) (project_id d) g in
  let newFeed :=
    {| Feed_Id := None; Feed_Name := name d; Feed_Project := None |} in
  let c := CreateFeed clients newFeed (project_id d) (snd q) in
  let out := resourceFeedCreate clients (start d g) in
  fst q = Err e ->
  fst (isFeedRestorable clients (start d g)) = Done false /\
  count_calls isRestoreDeletedFeed (calls (snd out)) = 0 /\
  match fst c with
  | Err e' =>
      out =
        (Done (Some (ErrorfWrap "creating new feed. Name: %s, Error: %+v"
                       [name d] e')),
         mkSession d (snd c)
           [GetFeedChangeCall (name d) (project_id d);
            CreateFeedCall newFeed (project_id d)])
  | Ok _ =>
      out =
        resourceFeedRead clients
          (mkSession (Set_restored false d) (snd c)
             [GetFeedChangeCall (name d) (project_id d);
              CreateFeedCall newFeed (project_id d)])
  end.
Proof.
  intros q newFeed c out Hq. subst q newFeed c out.
  unfold resourceFeedCreate, isFeedRestorable, createFeed.
  exec. rewrite Hq. simpl.
  split; [reflexivity|].
  split_reply.
  - match goal with
    | |- context [resourceFeedRead clients ?s] =>
        destruct (resourceFeedRead_frame s) as [Hc _]
    end.
    simpl in Hc. rewrite Hc. split; reflexivity.
  - split; reflexivity.
Qed.

(** C9. Delete with the permanent-delete flag: the purge call is issued
    exactly when the soft-delete call has succeeded, right after it; a
    purge failure is returned as it is and leaves the identifier in place;
    the identifier is cleared exactly when every issued call has succeeded.
    Without the flag no purge call is issued. *)
Theorem resourceFeedDelete_purge_after_soft_delete (d : ResourceData) (g : G) :
  let del := DeleteFeed clients (name d) (project_id d) g in
  let purge := PermanentDeleteFeed clients (name d) (project_id d) (snd del) in
  let out := resourceFeedDelete clients (start d g) in
  let log := calls (snd out) in
  let d' := data (snd out) in
  (permanent_delete d = true ->
   match fst del with
   | Some e =>
       log = [DeleteFeedCall (name d) (project_id d)] /\
       fst out = Done (Some e) /\ Id d' = Id d
   | None =>
       log = [DeleteFeedCall (name d) (project_id d);
              PermanentDeleteFeedCall (name d) (project_id d)] /\
       match fst purge with
       | Some e => fst out = Done (Some e) /\ Id d' = Id d
       | None => fst out = Done None /\ Id d' = ""
       end
   end) /\
  (permanent_delete d = false ->
   log = [DeleteFeedCall (name d) (project_id d)] /\
   count_calls isPermanentDeleteFeed log = 0 /\
   match fst del with
   | Some e => fst out = Done (Some e) /\ Id d' = Id d
   | None => fst out = Done None /\ Id d' = ""
   end).
Proof.
  intros del purge out log d'. subst del purge out log d'.
  unfold resourceFeedDelete. exec.
  split; intros Hflag; rewrite Hflag.
  - split_reply; [auto|]. split_reply; auto.
  - split_reply; auto.
Qed.

End FeedProperties.

(** Both branches on the scripted remote: a soft-deleted feed is restored,
    a feed whose change query fails is created. *)
Lemma resourceFeedCreate_restore_or_create_witness :
  (let out :=
     FeedResource.resourceFeedCreate
       (Scripted.client Scenario.softDeleted) (start Scenario.feedA 0) in
   count_calls isRestoreDeletedFeed (calls (snd out)) = 1 /\
   count_calls isCreateFeed (calls (snd out)) = 0 /\
   FeedResource.restored (data (snd out)) = true) /\
  (let out :=
     FeedResource.resourceFeedCreate
       (Scripted.client Scenario.changeQueryBroken) (start Scenario.feedA 0) in
   count_calls isCreateFeed (calls (snd out)) = 1 /\
   count_calls isRestoreDeletedFeed (calls (snd out)) = 0 /\
   FeedResource.restored (data (snd out)) = false).
Proof.
  split.
  - destruct (resourceFeedCreate_restore_or_create
                (Scripted.client Scenario.softDeleted) Scenario.feedA 0)
      as [H _].
    destruct H as (H1 & H2 & _ & H4).
    + exists {| ChangeType := ChangeTypeValues_Delete |}.
      split; reflexivity.
    + simpl in H4. auto.
  - destruct (resourceFeedCreate_restore_or_create
                (Scripted.client Scenario.changeQueryBroken) Scenario.feedA 0)
      as [_ H].
    destruct H as (H1 & H2 & _ & H4).
    + intros change Hq. discriminate Hq.
    + simpl in H4. auto.
Defined.

(** A refused restore call: the latest change is a soft-delete, one
    restore call is issued, and [restored] is still false when Create
    returns its error. *)
Lemma resourceFeedCreate_restore_refused :
  let clients := Scripted.client Scenario.restoreRefused in
  let out := FeedResource.resourceFeedCreate clients (start Scenario.feedA 0) in
  fst (GetFeedChange clients "feedA" "" 0) =
    Ok {| ChangeType := ChangeTypeValues_Delete |} /\
  count_calls isRestoreDeletedFeed (calls (snd out)) = 1 /\
  count_calls isCreateFeed (calls (snd out)) = 0 /\
  FeedResource.restored (data (snd out)) = false /\
  fst out =
    Done (Some (ErrorfWrap "restoring feed. Name: %s, Error: %+v" ["feedA"]
                  Scenario.serverError)).
Proof. repeat split. Qed.

Lemma resourceFeedCreate_swallows_query_error_witness :
  fst (FeedResource.isFeedRestorable
         (Scripted.client Scenario.changeQueryBroken) (start Scenario.feedA 0))
    = Done false /\
  fst (FeedResource.resourceFeedCreate
         (Scripted.client Scenario.changeQueryBroken) (start Scenario.feedA 0))
    = Done None.
Proof.
  pose proof (@resourceFeedCreate_swallows_query_error nat
                (Scripted.client Scenario.changeQueryBroken) Scenario.feedA 0
                Scenario.serverError eq_refl) as H.
  simpl in H. destruct H as (H1 & _ & H3).
  split; [exact H1|]. rewrite H3. reflexivity.
Defined.

Lemma resourceFeedDelete_purge_after_soft_delete_witness :
  (let out :=
     FeedResource.resourceFeedDelete
       (Scripted.client Scenario.purgeRefused)
       (start Scenario.existingFeedA 0) in
   calls (snd out) =
     [DeleteFeedCall "feedA" ""; PermanentDeleteFeedCall "feedA" ""] /\
   fst out = Done (Some Scenario.serverError) /\
   FeedResource.Id (data (snd out)) = "0f7e9a52-3c1b-4d6e-8a2f-5b9c7d1e4f60") /\
  (let out :=
     FeedResource.resourceFeedDelete
       (Scripted.client Scenario.purgeRefused)
       (start Scenario.keptFeedA 0) in
   calls (snd out) = [DeleteFeedCall "feedA" ""] /\
   fst out = Done None /\
   FeedResource.Id (data (snd out)) = "").
Proof.
  split.
  - destruct (resourceFeedDelete_purge_after_soft_delete
                (Scripted.client Scenario.purgeRefused)
                Scenario.existingFeedA 0) as [H _].
    specialize (H eq_refl). simpl in H.
    destruct H as (H1 & H2 & H3). auto.
  - destruct (resourceFeedDelete_purge_after_soft_delete
                (Scripted.client Scenario.purgeRefused)
                Scenario.keptFeedA 0) as [_ H].
    specialize (H eq_refl). simpl in H.
    destruct H as (H1 & _ & H2 & H3). auto.
Defined.

(** ** Reads *)

(** C6. Read against a remote that answers with an error: when the error
    is not-found the identifier is cleared and no error is returned; any
    other error is returned, wrapped, and the identifier is left as it
    was.  This holds for each Read of the sources: the feed read, the audit
    stream read with any flattener once the stored identifier parses, the
    feed permission read whatever call of its lookup failed, and the group
    entitlement read once the stored identifier parses. *)
Theorem read_not_found_clears_identifier {G : Type}
  (clients : AggregatedClient G) :
  (forall (d : FeedResource.ResourceData) (g : G) (e : error),
     let out := FeedResource.resourceFeedRead clients (start d g) in
     fst (GetFeed clients (FeedResource.name d) (FeedResource.project_id d) g)
       = Err e ->
     if ResponseWasNotFound e then
       fst out = Done None /\ FeedResource.Id (data (snd out)) = ""
     else
       fst out =
         Done (Some (ErrorfWrap "error reading feed during read: %+v" [] e)) /\
       FeedResource.Id (data (snd out)) = FeedResource.Id d) /\
  (forall (flat : AuditResource.flatFunc) (d : AuditResource.ResourceData)
          (g : G) (streamId : Z) (e : error),
     let out := AuditResource.genAuditStreamReadFunc clients flat (start d g) in
     Atoi (AuditResource.Id d) = Ok streamId ->
     fst (QueryStreamById clients streamId g) = Err e ->
     if ResponseWasNotFound e then
       fst out = Done None /\ AuditResource.Id (data (snd out)) = ""
     else
       fst out =
         Done (Some (ErrorfWrap
                       "Error looking up audit stream with ID %d. Error: %v"
                       [Itoa streamId] e)) /\
       AuditResource.Id (data (snd out)) = AuditResource.Id d) /\
  (forall (d : FeedPermissionResource.ResourceData) (g : G)
          (permission : option FeedPermission) (principal : option Identity)
          (e : error),
     let out :=
       FeedPermissionResource.resourceFeedPermissionRead clients (start d g) in
     fst (FeedPermissionResource.getFeedPermission clients (start d g))
       = Done (permission, principal, Some e) ->
     if ResponseWasNotFound e then
       fst out = Done None /\ FeedPermissionResource.Id (data (snd out)) = ""
     else
       fst out =
         Done (Some (ErrorfWrap
                       "error reading feed permission during read: %+v" [] e)) /\
       FeedPermissionResource.Id (data (snd out)) =
         FeedPermissionResource.Id d) /\
  (forall (parse : string -> result string)
          (d : GroupEntitlementResource.ResourceData) (g : G)
          (id : string) (e : error),
     let out :=
       GroupEntitlementResource.resourceGroupEntitlementRead clients parse
         (start d g) in
     parse (GroupEntitlementResource.Id d) = Ok id ->
     fst (GetGroupEntitlement clients id g) = Err e ->
     if ResponseWasNotFound e then
       fst out = Done None /\ GroupEntitlementResource.Id (data (snd out)) = ""
     else
       fst out =
         Done (Some (ErrorfWrap "Error reading group entitlement: %v" [] e)) /\
       GroupEntitlementResource.Id (data (snd out)) =
         GroupEntitlementResource.Id d).
Proof.
  split; [|split; [|split]].
  - intros d g e out Hget. subst out.
    unfold FeedResource.resourceFeedRead. exec. rewrite Hget.
    destruct (ResponseWasNotFound e); simpl; auto.
  - intros flat d g streamId e out Hid Hget. subst out.
    unfold AuditResource.genAuditStreamReadFunc, AuditResource.readAuditStream.
    exec. rewrite Hid. simpl. rewrite Hget.
    destruct (ResponseWasNotFound e); simpl; auto.
  - intros d g permission principal e out Hlookup. subst out.
    assert (Hdata :
      data (snd (FeedPermissionResource.getFeedPermission clients (start d g)))
      = d).
    { unfold FeedPermissionResource.getFeedPermission,
        FeedPermissionResource.getIdentity. exec.
      repeat split_reply; reflexivity. }
    destruct (FeedPermissionResource.getFeedPermission clients (start d g))
      as [[r|r] s'] eqn:Hrun; simpl in Hlookup; [|discriminate].
    injection Hlookup as ->. simpl in Hdata.
    assert (Hread :
      FeedPermissionResource.resourceFeedPermissionRead clients (start d g) =
      if ResponseWasNotFound e then
        (Done None,
         mkSession (FeedPermissionResource.SetId "" (data s')) (remote s')
           (calls s'))
      else
        (Done (Some (ErrorfWrap
                       "error reading feed permission during read: %+v" [] e)),
         s')).
    { unfold FeedPermissionResource.resourceFeedPermissionRead.
      unfold bind at 1. unfold get_data at 1. cbv beta iota zeta.
      unfold bind at 1. rewrite Hrun. cbn [fst snd].
      destruct (ResponseWasNotFound e); reflexivity. }
    rewrite Hread.
    destruct (ResponseWasNotFound e); simpl; rewrite ?Hdata; auto.
  - intros parse d g id e out Hid Hget. subst out.
    unfold GroupEntitlementResource.resourceGroupEntitlementRead,
      GroupEntitlementResource.readGroupEntitlement.
    exec. rewrite Hid. simpl. rewrite Hget.
    destruct (ResponseWasNotFound e); simpl; auto.
Qed.

Lemma read_not_found_clears_identifier_witness :
  (let out :=
     FeedResource.resourceFeedRead
       (Scripted.client Scenario.gone) (start Scenario.existingFeedA 0) in
   fst out = Done None /\ FeedResource.Id (data (snd out)) = "") /\
  (let out :=
     AuditResource.genAuditStreamReadFunc (Scripted.client Scenario.broken)
       (AuditResource.doBaseFlattening (G := nat)) (start Scenario.stream7 0) in
   fst out =
     Done (Some (ErrorfWrap
                   "Error looking up audit stream with ID %d. Error: %v"
                   ["7"] Scenario.serverError)) /\
   AuditResource.Id (data (snd out)) = "7").
Proof.
  destruct (read_not_found_clears_identifier (Scripted.client Scenario.gone))
    as [Hfeed _].
  destruct (read_not_found_clears_identifier (Scripted.client Scenario.broken))
    as (_ & Haudit & _).
  split.
  - exact (Hfeed Scenario.existingFeedA 0%nat Scenario.notFoundError eq_refl).
  - exact (Haudit (AuditResource.doBaseFlattening (G := nat)) Scenario.stream7
             0%nat 7%Z Scenario.serverError eq_refl eq_refl).
Defined.

(** ** Group entitlements *)

Section GroupEntitlementProperties.
Import GroupEntitlementResource.
Context {G : Type} (clients : AggregatedClient G).
Variable converter_AccountLicenseType : string -> result string.
Variable converter_AccountLicensingSource : string -> result string.
Variable uuid_Parse : string -> result string.

Lemma Split_nonempty (s : string) (sep : ascii) : Split s sep <> [].
Proof.
  destruct s as [|c rest]; simpl; [discriminate|].
  destruct (Ascii.eqb c sep); [discriminate|].
  destruct (Split rest sep); discriminate.
Qed.

(** A string that contains the separator splits into at least two
    parts. *)
Lemma Split_second (s : string) (sep : ascii) :
  Contains s sep = true -> exists part, nth_error (Split s sep) 1 = Some part.
Proof.
  induction s as [|c rest IH]; simpl; [discriminate|].
  destruct (Ascii.eqb c sep) eqn:Hc; simpl.
  - intros _. pose proof (Split_nonempty rest sep) as Hne.
    destruct (Split rest sep) as [|h t]; [congruence|].
    exists h; reflexivity.
  - intros Hin. destruct (IH Hin) as [part Hpart].
    destruct (Split rest sep) as [|h t]; simpl in *; [discriminate|].
    exists part; exact Hpart.
Qed.

Lemma nonempty_length (s : string) : s <> "" -> Nat.ltb 0 (String.length s) = true.
Proof. destruct s; [congruence|reflexivity]. Qed.

(** C7. A declared state in which both [origin_id] and [principal_name]
    are set is rejected by the encoder with the validation error naming
    both fields, and Create returns that error, wrapped, without issuing
    any remote call and without touching the resource data. *)
Theorem expandGroupEntitlement_rejects_both
  (d : ResourceData) (g : G) :
  let validationError :=
    Errorf
      "Both origin_id and principal_name set. You can not use both: origin_id: %s principal_name %s"
      [origin_id d; principal_name d] in
  let out :=
    resourceGroupEntitlementCreate clients converter_AccountLicenseType
      converter_AccountLicensingSource uuid_Parse (start d g) in
  origin_id d <> "" ->
  principal_name d <> "" ->
  fst (expandGroupEntitlement converter_AccountLicenseType
         converter_AccountLicensingSource (start d g))
    = Done (Err validationError) /\
  fst out =
    Done (Some (ErrorfWrap "Creating group entitlement: %v" [] validationError)) /\
  calls (snd out) = [] /\
  data (snd out) = d /\
  remote (snd out) = g.
Proof.
  intros validationError out Ho Hp. subst validationError out.
  apply nonempty_length in Ho. apply nonempty_length in Hp.
  unfold resourceGroupEntitlementCreate, expandGroupEntitlement. exec.
  rewrite Ho, Hp. simpl.
  destruct (Contains (principal_name d) backslash) eqn:Hc.
  - destruct (Split_second _ _ Hc) as [part Hpart].
    destruct (Split (principal_name d) backslash) as [|h t] eqn:Hs;
      [discriminate|].
    simpl in Hpart. simpl. rewrite Hpart. simpl. auto.
  - simpl. auto.
Qed.

End GroupEntitlementProperties.

Lemma expandGroupEntitlement_rejects_both_witness :
  let out :=
    GroupEntitlementResource.resourceGroupEntitlementCreate
      (Scripted.client Scenario.broken) Scenario.acceptAll Scenario.acceptAll
      Scenario.acceptAll (start Scenario.bothSet 0) in
  (exists e, fst out = Done (Some e)) /\ calls (snd out) = [].
Proof.
  destruct (@expandGroupEntitlement_rejects_both nat
              (Scripted.client Scenario.broken) Scenario.acceptAll
              Scenario.acceptAll Scenario.acceptAll Scenario.bothSet 0)
    as (_ & H2 & H3 & _).
  - simpl. discriminate.
  - simpl. discriminate.
  - split; [eexists; exact H2 | exact H3].
Defined.

(** ** Feed permissions *)

Section FeedPermissionProperties.
Import FeedPermissionResource.
Context {G : Type} (clients : AggregatedClient G).

(** The calls of the read only extend the log. *)
Lemma resourceFeedPermissionRead_extends (s : Session ResourceData G) :
  exists l, calls (snd (resourceFeedPermissionRead clients s)) = calls s ++ l.
Proof.
  unfold resourceFeedPermissionRead, getFeedPermission, getIdentity. exec.
  repeat split_reply;
    rewrite <- ?app_assoc; eexists; reflexivity.
Qed.

(** C4. Create for a principal that already holds a grant on the feed
    returns the already-exists error and issues no grant-setting call.  In
    every run of Create, a grant-setting call is preceded by the identity
    lookup and the read of the existing grants. *)
Theorem resourceFeedPermissionCreate_conflict (d : ResourceData) (g : G) :
  let out := resourceFeedPermissionCreate clients (start d g) in
  let log := calls (snd out) in
  (forall (key : GraphStorageKeyResult) (principal : Identity)
          (permissions : list FeedPermission) (existing : FeedPermission),
     let k := GetStorageKey clients (identity_descriptor d) g in
     let i := ReadIdentity clients (StorageKey_Value key) (snd k) in
     fst k = Ok key ->
     fst i = Ok principal ->
     fst (GetFeedPermissions clients (feed_id d) (project_id d) (snd i))
       = Ok permissions ->
     In existing permissions ->
     IdentityDescriptor existing = Descriptor principal ->
     fst out =
       Done (Some (Errorf
                     "feed Permission for Feed : %s and Identity : %s already exists"
                     [feed_id d; identity_descriptor d])) /\
     count_calls isSetFeedPermissions log = 0 /\
     data (snd out) = d) /\
  (count_calls isSetFeedPermissions log = 0 \/
   exists key rest,
     log = GetStorageKeyCall (identity_descriptor d)
             :: ReadIdentityCall key
             :: GetFeedPermissionsCall (feed_id d) (project_id d)
             :: rest).
Proof.
  intros out log. subst out log. split.
  - intros key principal permissions existing k i Hk Hi Hp Hin Hdesc.
    subst k i.
    unfold resourceFeedPermissionCreate, getFeedPermission, getIdentity.
    exec. rewrite Hk. simpl. rewrite Hi. simpl. rewrite Hp. simpl.
    destruct (find _ permissions) as [found|] eqn:Hfind; simpl.
    + auto.
    + exfalso.
      pose proof (find_none _ _ Hfind existing Hin) as Hno.
      simpl in Hno. rewrite Hdesc, String.eqb_refl in Hno. discriminate.
  - unfold resourceFeedPermissionCreate, getFeedPermission, getIdentity.
    exec.
    repeat split_reply; try (left; reflexivity).
    all: right;
      match goal with
      | |- context [resourceFeedPermissionRead clients ?s] =>
          destruct (resourceFeedPermissionRead_extends s) as [l Hl];
          simpl in Hl; rewrite Hl
      | |- _ => idtac
      end;
      do 2 eexists; simpl; reflexivity.
Qed.

(** C5 (amended). Delete resolves the identity and then issues one
    grant-setting call that carries the descriptor with the role None; it
    issues no other call, and clears the identifier when that call
    succeeds.  Delete is idempotent as far as the remote is: against a
    remote whose answers to the identity lookup and to the setting of a None
    role do not depend on its state, a second Delete that follows the first
    returns what the first returned, so that it does not fail when the first
    succeeded.  Nothing is promised against a remote that answers the
    repeated revocation differently. *)
Theorem resourceFeedPermissionDelete_idempotent (d : ResourceData) (g : G) :
  let k := GetStorageKey clients (identity_descriptor d) g in
  let out1 := resourceFeedPermissionDelete clients (start d g) in
  let out2 := resourceFeedPermissionDelete clients (snd out1) in
  calls (snd out1) =
    match fst k with
    | Err _ => [GetStorageKeyCall (identity_descriptor d)]
    | Ok key =>
        match fst (ReadIdentity clients (StorageKey_Value key) (snd k)) with
        | Err _ =>
            [GetStorageKeyCall (identity_descriptor d);
             ReadIdentityCall (StorageKey_Value key)]
        | Ok principal =>
            [GetStorageKeyCall (identity_descriptor d);
             ReadIdentityCall (StorageKey_Value key);
             SetFeedPermissionsCall (feed_id d) (project_id d)
               [{| DisplayName := None;
                   IdentityDescriptor := Descriptor principal;
                   IdentityId := None;
                   Role := FeedRoleValues_None |}]]
        end
    end /\
  (fst out1 = Done None ->
   count_calls isSetFeedPermissions (calls (snd out1)) = 1 /\
   Id (data (snd out1)) = "") /\
  ((forall s s',
      fst (GetStorageKey clients (identity_descriptor d) s) =
      fst (GetStorageKey clients (identity_descriptor d) s')) ->
   (forall key s s',
      fst (ReadIdentity clients key s) = fst (ReadIdentity clients key s')) ->
   (forall principal s s',
      fst (SetFeedPermissions clients (feed_id d) (project_id d)
             [revocationOf principal] s) =
      fst (SetFeedPermissions clients (feed_id d) (project_id d)
             [revocationOf principal] s')) ->
   fst out2 = fst out1 /\
   (fst out1 = Done None -> fst out2 = Done None)).
Proof.
  intros k out1 out2. subst k out1 out2.
  unfold resourceFeedPermissionDelete, getIdentity. exec.
  split; [|split].
  - repeat split_reply; reflexivity.
  - repeat split_reply; intros H; try discriminate; auto.
  - intros Hkey Hid Hset.
    assert (Heq : forall x y : outcome (option error),
               x = y -> x = y /\ (y = Done None -> x = Done None))
      by (intros x y ->; auto).
    apply Heq.
    destruct (fst (GetStorageKey clients (identity_descriptor d) g))
      as [key|e] eqn:Hk; simpl.
    + destruct (fst (ReadIdentity clients (StorageKey_Value key)
                       (snd (GetStorageKey clients (identity_descriptor d) g))))
        as [principal|e] eqn:Hi; simpl.
      * destruct (fst (SetFeedPermissions clients (feed_id d) (project_id d)
                         [revocationOf principal] _)) as [l|e] eqn:Hs; simpl.
        all: rewrite (Hkey _ g), Hk; simpl.
        all: rewrite (Hid _ _ (snd (GetStorageKey clients
                                      (identity_descriptor d) g))), Hi; simpl.
        all: match goal with
             | |- context [fst (SetFeedPermissions clients ?f ?p ?l ?s)] =>
                 match type of Hs with
                 | fst (SetFeedPermissions _ _ _ _ ?s0) = _ =>
                     rewrite (Hset principal s s0), Hs
                 end
             end.
        all: reflexivity.
      * rewrite (Hkey _ g), Hk. simpl.
        rewrite (Hid _ _ (snd (GetStorageKey clients
                                 (identity_descriptor d) g))), Hi.
        reflexivity.
    + rewrite (Hkey _ g), Hk. reflexivity.
Qed.

End FeedPermissionProperties.

(** ** Audit streams *)

Section AuditProperties.
Import AuditResource.
Context {G : Type} (clients : AggregatedClient G).

(** One refresh that reads a pending status. *)
Lemma readStreamStatus_pending (streamId : Z) (s : Session ResourceData G) :
  isPendingRead clients streamId (remote s) ->
  exists auditStream,
    readStreamStatus clients streamId s =
    (Done (Some auditStream, AuditStreamStatusValues FBackfilling, None),
     mkSession (data s) (snd (QueryStreamById clients streamId (remote s)))
       (calls s ++ [QueryStreamByIdCall streamId])).
Proof.
  intros (auditStream & status & Hq & Hs & Hv).
  exists auditStream.
  unfold readStreamStatus, readAuditStream. exec.
  rewrite Hq. simpl. rewrite Hs. simpl. rewrite Hv. reflexivity.
Qed.

(** One refresh that reads a target status. *)
Lemma readStreamStatus_target (streamId : Z) (s : Session ResourceData G) :
  isTargetRead clients streamId (remote s) ->
  exists auditStream state,
    inStates state targetStates = true /\
    readStreamStatus clients streamId s =
    (Done (Some auditStream, state, None),
     mkSession (data s) (snd (QueryStreamById clients streamId (remote s)))
       (calls s ++ [QueryStreamByIdCall streamId])).
Proof.
  intros (auditStream & status & Hq & Hs & Hv).
  exists auditStream, (deref_status status). split; [exact Hv|].
  unfold readStreamStatus, readAuditStream. exec.
  rewrite Hq. simpl. rewrite Hs. reflexivity.
Qed.

(** The wait against reads that stay pending: the whole budget is spent
    on reads and the wait ends with the timeout error. *)
Lemma pollLoop_pending (streamId timeout : Z) :
  forall (budget occurrences : nat) (lastState : string)
         (s : Session ResourceData G),
    (forall k, (k < budget)%nat ->
       isPendingRead clients streamId (afterReads clients k streamId (remote s))) ->
    pollLoop (stateConf clients streamId timeout) budget occurrences lastState s =
    (Done (Err (TimeoutError
                  (match budget with
                   | O => lastState
                   | S _ => AuditStreamStatusValues FBackfilling
                   end) targetStates)),
     mkSession (data s) (afterReads clients budget streamId (remote s))
       (calls s ++ repeat (QueryStreamByIdCall streamId) budget)).
Proof.
  induction budget as [|budget IH]; intros occurrences lastState s Hpending.
  - simpl. rewrite app_nil_r. destruct s; reflexivity.
  - destruct (readStreamStatus_pending s (Hpending 0%nat (Nat.lt_0_succ _)))
      as [auditStream Hread].
    cbn [pollLoop]. unfold bind at 1.
    cbn [Refresh stateConf]. rewrite Hread.
    cbn [fst snd Target Pending stateConf].
    change (inStates (AuditStreamStatusValues FBackfilling) targetStates) with false.
    change (inStates (AuditStreamStatusValues FBackfilling) pendingStates) with true.
    cbv iota.
    rewrite IH.
    + cbn [data remote calls afterReads].
      rewrite <- app_assoc. cbn [app repeat].
      destruct budget; reflexivity.
    + intros k Hk. cbn [remote].
      apply (Hpending (S k)). apply (proj1 (Nat.succ_lt_mono _ _)). exact Hk.
Qed.

(** The wait against reads that answer pending [n] times and then a
    target status, with a budget of more than [n] reads. *)
Lemma pollLoop_target (streamId timeout : Z) :
  forall (n budget occurrences : nat) (lastState : string)
         (s : Session ResourceData G),
    (n < budget)%nat ->
    pendingThenTarget clients n streamId (remote s) ->
    exists auditStream,
      pollLoop (stateConf clients streamId timeout) budget occurrences lastState s =
      (Done (Ok (Some auditStream)),
       mkSession (data s) (afterReads clients (S n) streamId (remote s))
         (calls s ++ repeat (QueryStreamByIdCall streamId) (S n))).
Proof.
  induction n as [|n IH]; intros budget occurrences lastState s Hlt [Hpend Htgt].
  - destruct budget as [|budget]; [inversion Hlt|].
    simpl in Htgt.
    destruct (readStreamStatus_target s Htgt)
      as (auditStream & state & Hstate & Hread).
    exists auditStream.
    cbn [pollLoop]. unfold bind at 1.
    cbn [Refresh stateConf]. rewrite Hread.
    cbn [fst snd Target Pending ContinuousTargetOccurence stateConf].
    rewrite Hstate. reflexivity.
  - destruct budget as [|budget]; [inversion Hlt|].
    destruct (readStreamStatus_pending s (Hpend 0%nat (Nat.lt_0_succ _)))
      as [first Hread].
    set (s' := mkSession (data s)
                 (snd (QueryStreamById clients streamId (remote s)))
                 (calls s ++ [QueryStreamByIdCall streamId])).
    destruct (IH budget 0%nat (AuditStreamStatusValues FBackfilling) s')
      as [auditStream Hloop].
    + apply (proj2 (Nat.succ_lt_mono _ _)). exact Hlt.
    + split.
      * intros k Hk. apply (Hpend (S k)).
        apply (proj1 (Nat.succ_lt_mono _ _)). exact Hk.
      * exact Htgt.
    + exists auditStream.
      cbn [pollLoop]. unfold bind at 1.
      cbn [Refresh stateConf]. rewrite Hread.
      cbn [fst snd Target Pending stateConf].
      change (inStates (AuditStreamStatusValues FBackfilling) targetStates) with false.
      change (inStates (AuditStreamStatusValues FBackfilling) pendingStates) with true.
      cbv iota. fold s'. rewrite Hloop.
      subst s'. cbn [data remote calls afterReads].
      rewrite <- app_assoc. reflexivity.
Qed.

(** Whatever the remote answers, the wait issues status reads only, and
    no more of them than its budget. *)
Lemma pollLoop_reads_only (streamId timeout : Z) :
  forall (budget occurrences : nat) (lastState : string)
         (s : Session ResourceData G),
    exists k,
      (k <= budget)%nat /\
      calls (snd (pollLoop (stateConf clients streamId timeout) budget
                    occurrences lastState s)) =
      calls s ++ repeat (QueryStreamByIdCall streamId) k.
Proof.
  induction budget as [|budget IH]; intros occurrences lastState s.
  - exists 0%nat. simpl. rewrite app_nil_r. auto.
  - cbn [pollLoop]. unfold bind at 1. cbn [Refresh stateConf].
    unfold readStreamStatus, readAuditStream. exec.
    destruct (fst (QueryStreamById clients streamId (remote s)))
      as [auditStream|e]; simpl.
    + destruct (AuditStream_Status auditStream) as [status|]; simpl.
      * destruct (inStates (deref_status status) targetStates).
        -- exists 1%nat. split; [apply le_n_S, Nat.le_0_l|reflexivity].
        -- destruct (inStates (deref_status status) pendingStates).
           ++ match goal with
              | |- context [pollLoop _ budget ?o ?l ?s'] =>
                  destruct (IH o l s') as (k & Hk & Hcalls)
              end.
              exists (S k). split; [apply le_n_S; exact Hk|].
              rewrite Hcalls. simpl. rewrite <- app_assoc. reflexivity.
           ++ exists 1%nat. split; [apply le_n_S, Nat.le_0_l|reflexivity].
      * exists 1%nat. split; [apply le_n_S, Nat.le_0_l|reflexivity].
    + exists 1%nat. split; [apply le_n_S, Nat.le_0_l|reflexivity].
Qed.

(** The wait leaves the resource data alone. *)
Lemma pollLoop_data (streamId timeout : Z) :
  forall (budget occurrences : nat) (lastState : string)
         (s : Session ResourceData G),
    data (snd (pollLoop (stateConf clients streamId timeout) budget
                 occurrences lastState s)) = data s.
Proof.
  induction budget as [|budget IH]; intros occurrences lastState s;
    [reflexivity|].
  cbn [pollLoop]. unfold bind at 1. cbn [Refresh stateConf].
  unfold readStreamStatus, readAuditStream. exec.
  destruct (fst (QueryStreamById clients streamId (remote s))); simpl;
    [|reflexivity].
  destruct (AuditStream_Status a); simpl; [|reflexivity].
  destruct (inStates _ targetStates); [reflexivity|].
  destruct (inStates _ pendingStates); [|reflexivity].
  rewrite IH. reflexivity.
Qed.

(** [createAuditStream] after a successful create call that returned an
    identifier: the wait decides the outcome. *)
Lemma createAuditStream_run
  (stream : AuditStream) (daysToBackfill timeout : Z)
  (d : ResourceData) (g : G) (created : AuditStream) (streamId : Z) :
  let c := CreateStream clients stream daysToBackfill g in
  let waiting :=
    WaitForState (stateConf clients streamId timeout)
      (mkSession d (snd c) [CreateStreamCall stream daysToBackfill]) in
  fst c = Ok created ->
  AuditStream_Id created = Some streamId ->
  createAuditStream clients stream daysToBackfill timeout (start d g) =
  (match fst waiting with
   | Done (Ok _) => Done (Ok created)
   | Done (Err err) =>
       Done (Err (ErrorfWrap " waiting for auditstream ready. %v " [] err))
   | Panicked r => Panicked r
   end, snd waiting).
Proof.
  intros c waiting Hc Hid. subst c waiting.
  unfold createAuditStream. exec. rewrite Hc. simpl. rewrite Hid. simpl.
  destruct (WaitForState _ _) as [[[w|e]|r] s']; reflexivity.
Qed.

(** C2 (amended). Stabilization after a successful create call.  When the
    status reads answer Backfilling [n] times and then a target status, and
    these [n + 1] reads fit into the budget that the timeout allows, the
    wait issues exactly [n + 1] status reads and [createAuditStream] returns
    the created stream.  When the status reads never leave Backfilling,
    [createAuditStream] returns the timeout error after exactly as many
    reads as the budget allows.  In every case the create call is issued
    once and is followed by status reads only, no more than the budget. *)
Theorem createAuditStream_stabilization
  (stream : AuditStream) (daysToBackfill timeout : Z)
  (d : ResourceData) (g : G) (created : AuditStream) (streamId : Z) :
  let c := CreateStream clients stream daysToBackfill g in
  let budget := pollBudget (stateConf clients streamId timeout) in
  let out :=
    createAuditStream clients stream daysToBackfill timeout (start d g) in
  fst c = Ok created ->
  AuditStream_Id created = Some streamId ->
  (forall n,
     pendingThenTarget clients n streamId (snd c) ->
     (n < budget)%nat ->
     fst out = Done (Ok created) /\
     calls (snd out) =
       CreateStreamCall stream daysToBackfill
         :: repeat (QueryStreamByIdCall streamId) (S n)) /\
  (neverLeavesPending clients streamId (snd c) ->
   (exists lastState,
      fst out =
        Done (Err (ErrorfWrap " waiting for auditstream ready. %v " []
                     (TimeoutError lastState targetStates)))) /\
   calls (snd out) =
     CreateStreamCall stream daysToBackfill
       :: repeat (QueryStreamByIdCall streamId) budget) /\
  (exists k,
     (k <= budget)%nat /\
     calls (snd out) =
       CreateStreamCall stream daysToBackfill
         :: repeat (QueryStreamByIdCall streamId) k).
Proof.
  intros c budget out Hc Hid. subst c budget out.
  rewrite (createAuditStream_run stream daysToBackfill timeout d g Hc Hid).
  unfold WaitForState. cbn [fst snd].
  split; [|split].
  - intros n Hscript Hlt.
    match goal with
    | |- context [pollLoop ?conf ?b ?o ?l ?s] =>
        destruct (@pollLoop_target streamId timeout n b o l s Hlt Hscript)
          as [auditStream Hloop]
    end.
    rewrite Hloop. simpl. auto.
  - intros Hpending.
    rewrite pollLoop_pending.
    + simpl. split; [eexists; reflexivity|reflexivity].
    + intros k _. apply Hpending.
  - match goal with
    | |- context [pollLoop ?conf ?b ?o ?l ?s] =>
        destruct (pollLoop_reads_only streamId timeout b o l s)
          as (k & Hk & Hcalls)
    end.
    exists k. split; [exact Hk|]. exact Hcalls.
Qed.

(** C3 (amended). When the wait for stabilization fails after a successful
    create call, by exceeding its timeout or otherwise, the Create
    operation returns the error, wrapped, and issues no further call; the
    resource data is left as it was, so the identifier that the create call
    returned is not recorded. *)
Theorem genAuditStreamCreateFunc_failed_wait
  (flat : flatFunc) (expand : expandFunc (G := G))
  (d : ResourceData) (g : G)
  (stream created : AuditStream) (daysToBackfill : Z) (enabled : bool)
  (streamId : Z) (e : error) :
  let c := CreateStream clients stream daysToBackfill g in
  let waiting :=
    WaitForState (stateConf clients streamId (Timeout_Create d))
      (mkSession d (snd c) [CreateStreamCall stream daysToBackfill]) in
  let out := genAuditStreamCreateFunc clients flat expand (start d g) in
  expand (start d g) = (Done (stream, daysToBackfill, enabled), start d g) ->
  fst c = Ok created ->
  AuditStream_Id created = Some streamId ->
  fst waiting = Done (Err e) ->
  fst out =
    Done (Some (ErrorfWrap "Error creating audit stream in Azure DevOps: %+v" []
                  (ErrorfWrap " waiting for auditstream ready. %v " [] e))) /\
  snd out = snd waiting /\
  data (snd out) = d /\
  Id (data (snd out)) = Id d.
Proof.
  intros c waiting out Hexpand Hc Hid Hwait. subst c out.
  assert (Hdata : data (snd waiting) = d)
    by (subst waiting; unfold WaitForState; apply pollLoop_data).
  assert (Hrun :
    genAuditStreamCreateFunc clients flat expand (start d g) =
    (Done (Some (ErrorfWrap "Error creating audit stream in Azure DevOps: %+v"
                   [] (ErrorfWrap " waiting for auditstream ready. %v " [] e))),
     snd waiting)).
  { unfold genAuditStreamCreateFunc.
    unfold bind at 1. rewrite Hexpand. cbn [fst snd].
    unfold bind at 1. unfold get_data at 1. cbn [data start].
    unfold bind at 1.
    rewrite (createAuditStream_run stream daysToBackfill (Timeout_Create d) d g
               Hc Hid).
    fold waiting. rewrite Hwait. reflexivity. }
  rewrite Hrun. cbn [fst snd]. rewrite Hdata. auto.
Qed.

(** The status-update call of [setStreamStatusState] is decided by the
    identity of the status pointer. *)
Lemma setStreamStatusState_calls (stream : AuditStream) (enabled : bool)
  (s : Session ResourceData G) :
  let desired :=
    Some (AddrOfValues (if enabled then FEnabled else FDisabledByUser)) in
  calls (snd (setStreamStatusState clients stream enabled s)) =
    if ptr_eqb (AuditStream_Status stream) desired then calls s
    else calls s ++ [UpdateStatusCall (AuditStream_Id stream) desired].
Proof.
  unfold setStreamStatusState.
  destruct enabled; simpl;
    destruct (ptr_eqb (AuditStream_Status stream) _); reflexivity.
Qed.

(** A stream decoded from a reply of the remote holds its status in a heap
    cell; for such a stream the status-update call is issued whatever the
    status and whatever the flag. *)
Lemma setStreamStatusState_heap_always_updates
  (displayName : option string) (id : option Z) (addr : nat)
  (content : string) (enabled : bool) (s : Session ResourceData G) :
  let stream :=
    {| AuditStream_DisplayName := displayName;
       AuditStream_Id := id;
       AuditStream_Status := Some (HeapCell addr content) |} in
  count_calls isUpdateStatus
    (calls (snd (setStreamStatusState clients stream enabled (start (data s) (remote s)))))
  = 1%nat.
Proof.
  intros stream. rewrite setStreamStatusState_calls.
  destruct enabled; reflexivity.
Qed.

End AuditProperties.

(** ** The properties on the scripted remote *)

Section ScriptedRuns.
Import Scenario.

(** Every call moves the scripted remote one step on. *)
Lemma afterReads_scripted (script : Scripted.Script) (k : nat)
  (streamId : Z) (n : nat) :
  AuditResource.afterReads (Scripted.client script) k streamId n = (k + n)%nat.
Proof.
  revert n. induction k as [|k IH]; intros n; [reflexivity|].
  simpl. rewrite IH. apply Nat.add_succ_r.
Qed.

(** After the create call, [backfills pending] answers Backfilling
    [pending] times and then Enabled. *)
Lemma backfills_pendingThenTarget (pending : nat) :
  AuditResource.pendingThenTarget (Scripted.client (backfills pending))
    pending 7 1.
Proof.
  split.
  - intros k Hk. rewrite afterReads_scripted.
    exists (heapStream (k + 1) FBackfilling),
           (HeapCell (k + 1) (AuditStreamStatusValues FBackfilling)).
    simpl. unfold Scripted.serve, backfills. simpl.
    replace (Nat.leb (k + 1) pending) with true; [auto|].
    symmetry. apply Nat.leb_le. rewrite Nat.add_1_r. exact Hk.
  - rewrite afterReads_scripted.
    exists (heapStream (pending + 1) FEnabled),
           (HeapCell (pending + 1) (AuditStreamStatusValues FEnabled)).
    simpl. unfold Scripted.serve, backfills. simpl.
    replace (Nat.leb (pending + 1) pending) with false; [auto|].
    symmetry. apply Nat.leb_gt. rewrite Nat.add_1_r. apply Nat.lt_succ_diag_r.
Qed.

Lemma stuck_neverLeavesPending (n : nat) :
  AuditResource.neverLeavesPending (Scripted.client stuck) 7 n.
Proof.
  intros k. rewrite afterReads_scripted.
  exists (heapStream (k + n) FBackfilling),
         (HeapCell (k + n) (AuditStreamStatusValues FBackfilling)).
  simpl. auto.
Qed.

End ScriptedRuns.

(** With the default timeout of ten minutes the budget is sixty reads. *)
Lemma pollBudget_default :
  AuditResource.pollBudget
    (AuditResource.stateConf (Scripted.client Scenario.stuck) 7
       AuditResource.DefaultTimeout_Create) = 60%nat.
Proof. reflexivity. Qed.

(** Two pending reads and then Enabled: three reads and success; a remote
    that is stuck: the timeout error after the sixty reads of the
    budget. *)
Lemma createAuditStream_stabilization_witness :
  (let out :=
     AuditResource.createAuditStream (Scripted.client (Scenario.backfills 2))
       Scenario.newStreamRequest 0 AuditResource.DefaultTimeout_Create
       (start Scenario.newStream 0) in
   fst out = Done (Ok (Scenario.heapStream 0 FBackfilling)) /\
   calls (snd out) =
     CreateStreamCall Scenario.newStreamRequest 0
       :: repeat (QueryStreamByIdCall 7) 3) /\
  (let out :=
     AuditResource.createAuditStream (Scripted.client Scenario.stuck)
       Scenario.newStreamRequest 0 AuditResource.DefaultTimeout_Create
       (start Scenario.newStream 0) in
   calls (snd out) =
     CreateStreamCall Scenario.newStreamRequest 0
       :: repeat (QueryStreamByIdCall 7) 60).
Proof.
  split.
  - destruct (@createAuditStream_stabilization nat
                (Scripted.client (Scenario.backfills 2))
                Scenario.newStreamRequest 0%Z
                AuditResource.DefaultTimeout_Create Scenario.newStream 0%nat
                (Scenario.heapStream 0 FBackfilling) 7%Z eq_refl eq_refl)
      as (H & _ & _).
    apply (H 2%nat).
    + apply backfills_pendingThenTarget.
    + vm_compute. repeat constructor.
  - destruct (@createAuditStream_stabilization nat
                (Scripted.client Scenario.stuck)
                Scenario.newStreamRequest 0%Z
                AuditResource.DefaultTimeout_Create Scenario.newStream 0%nat
                (Scenario.heapStream 0 FBackfilling) 7%Z eq_refl eq_refl)
      as (_ & H & _).
    destruct (H (stuck_neverLeavesPending 1)) as [_ Hcalls].
    exact Hcalls.
Defined.

(** Pending reads that outlast the budget: the remote answers Backfilling
    sixty times and then Enabled, and with the default timeout the create
    returns the timeout error after sixty reads, not success after
    sixty-one. *)
Lemma createAuditStream_times_out_before_target :
  let clients := Scripted.client (Scenario.backfills 60) in
  let out :=
    AuditResource.createAuditStream clients Scenario.newStreamRequest 0
      AuditResource.DefaultTimeout_Create (start Scenario.newStream 0) in
  AuditResource.pendingThenTarget clients 60 7
    (snd (CreateStream clients Scenario.newStreamRequest 0 0%nat)) /\
  fst out =
    Done (Err (ErrorfWrap " waiting for auditstream ready. %v " []
                 (TimeoutError (AuditStreamStatusValues FBackfilling)
                    AuditResource.targetStates))) /\
  count_calls isQueryStreamById (calls (snd out)) = 60%nat /\
  fst out <> Done (Ok (Scenario.heapStream 0 FBackfilling)).
Proof.
  split; [apply backfills_pendingThenTarget|].
  split; [vm_compute; reflexivity|].
  split; [vm_compute; reflexivity|].
  vm_compute. discriminate.
Qed.

Lemma genAuditStreamCreateFunc_failed_wait_witness :
  let out :=
    AuditResource.genAuditStreamCreateFunc (Scripted.client Scenario.stuck)
      (AuditResource.doBaseFlattening (G := nat))
      (AuditResource.doBaseExpansion (G := nat))
      (start Scenario.newStream 0) in
  (exists e, fst out = Done (Some e)) /\
  AuditResource.Id (data (snd out)) = "".
Proof.
  destruct (@genAuditStreamCreateFunc_failed_wait nat
              (Scripted.client Scenario.stuck)
              (AuditResource.doBaseFlattening (G := nat))
              (AuditResource.doBaseExpansion (G := nat))
              Scenario.newStream 0%nat Scenario.newStreamRequest
              (Scenario.heapStream 0 FBackfilling) 0%Z true 7%Z
              (TimeoutError (AuditStreamStatusValues FBackfilling)
                 AuditResource.targetStates))
    as (H1 & _ & _ & H4).
  - reflexivity.
  - reflexivity.
  - reflexivity.
  - vm_compute. reflexivity.
  - split; [eexists; exact H1 | exact H4].
Defined.

(** A timeout after a successful create call: the create call returns the
    identifier 7, the stream stays in Backfilling, and Create returns the
    timeout error with the identifier of the resource data still empty; a
    read that follows has no identifier to parse and issues no call. *)
Lemma genAuditStreamCreateFunc_timeout_drops_identifier :
  let clients := Scripted.client Scenario.stuck in
  let out :=
    AuditResource.genAuditStreamCreateFunc clients
      (AuditResource.doBaseFlattening (G := nat))
      (AuditResource.doBaseExpansion (G := nat))
      (start Scenario.newStream 0) in
  let again :=
    AuditResource.genAuditStreamReadFunc clients
      (AuditResource.doBaseFlattening (G := nat)) (snd out) in
  option_map AuditStream_Id
    (match fst (CreateStream clients Scenario.newStreamRequest 0 0%nat) with
     | Ok created => Some created
     | Err _ => None
     end) = Some (Some 7%Z) /\
  fst out =
    Done (Some (ErrorfWrap "Error creating audit stream in Azure DevOps: %+v" []
                  (ErrorfWrap " waiting for auditstream ready. %v " []
                     (TimeoutError (AuditStreamStatusValues FBackfilling)
                        AuditResource.targetStates)))) /\
  AuditResource.Id (data (snd out)) = "" /\
  AuditResource.Id (data (snd out)) <> Itoa 7 /\
  fst again =
    Done (Some (ErrorfWrap
                  "Error parsing the audit stream ID from the Terraform resource data: %v"
                  [] (NumError "Atoi" ""))) /\
  calls (snd again) = calls (snd out).
Proof.
  vm_compute. repeat split; try reflexivity. discriminate.
Qed.

(** C8 fails on the code.  The create call and every read answer with an
    enabled stream and the desired flag is enabled, so the current status
    and the desired one agree; the status of a decoded reply lives in a
    heap cell, the comparison in [setStreamStatusState] is one of
    addresses, and the status-update call is issued all the same. *)
Theorem setStreamStatusState_updates_agreeing_stream :
  let clients := Scripted.client Scenario.enabledAtOnce in
  let created := Scenario.heapStream 0 FEnabled in
  let out :=
    AuditResource.genAuditStreamCreateFunc clients
      (AuditResource.doBaseFlattening (G := nat))
      (AuditResource.doBaseExpansion (G := nat))
      (start Scenario.newStream 0) in
  AuditResource.enabled Scenario.newStream = true /\
  fst (CreateStream clients Scenario.newStreamRequest 0 0%nat) = Ok created /\
  option_map deref_status (AuditStream_Status created) =
    Some (AuditStreamStatusValues FEnabled) /\
  fst out = Done None /\
  calls (snd out) =
    [CreateStreamCall Scenario.newStreamRequest 0;
     QueryStreamByIdCall 7;
     UpdateStatusCall (Some 7%Z) (Some (AddrOfValues FEnabled));
     QueryStreamByIdCall 7] /\
  count_calls isUpdateStatus (calls (snd out)) = 1%nat.
Proof. vm_compute. repeat split; reflexivity. Qed.

Lemma resourceFeedPermissionCreate_conflict_witness :
  let out :=
    FeedPermissionResource.resourceFeedPermissionCreate
      (Scripted.client Scenario.alreadyGranted)
      (start Scenario.grantForAlice 0) in
  fst out =
    Done (Some (Errorf
                  "feed Permission for Feed : %s and Identity : %s already exists"
                  ["0f7e9a52-3c1b-4d6e-8a2f-5b9c7d1e4f60"; "aad.alice"])) /\
  count_calls isSetFeedPermissions (calls (snd out)) = 0%nat.
Proof.
  destruct (resourceFeedPermissionCreate_conflict
              (Scripted.client Scenario.alreadyGranted)
              Scenario.grantForAlice 0%nat) as [H _].
  destruct (H {| StorageKey_Value := Identity_Id Scenario.alice |}
              Scenario.alice [Scenario.aliceGrant] Scenario.aliceGrant
              eq_refl eq_refl eq_refl (or_introl eq_refl) eq_refl)
    as (H1 & H2 & _).
  split; [exact H1 | exact H2].
Defined.

Lemma resourceFeedPermissionDelete_idempotent_witness :
  let clients := Scripted.client Scenario.alreadyGranted in
  let out1 :=
    FeedPermissionResource.resourceFeedPermissionDelete clients
      (start Scenario.grantForAlice 0) in
  let out2 :=
    FeedPermissionResource.resourceFeedPermissionDelete clients (snd out1) in
  fst out1 = Done None /\ fst out2 = Done None.
Proof.
  destruct (resourceFeedPermissionDelete_idempotent
              (Scripted.client Scenario.alreadyGranted)
              Scenario.grantForAlice 0%nat) as (_ & _ & H).
  destruct H as [_ H].
  - intros s s'. reflexivity.
  - intros key s s'. reflexivity.
  - intros principal s s'. reflexivity.
  - split; [reflexivity | apply H; reflexivity].
Defined.

(** A second Delete that fails: the remote accepts the first revocation
    and answers the repeated one with not-found; the first Delete succeeds
    and the second returns that error, wrapped. *)
Lemma resourceFeedPermissionDelete_second_refused :
  let clients := Scripted.client Cases.revokeOnce in
  let out1 :=
    FeedPermissionResource.resourceFeedPermissionDelete clients
      (start Scenario.grantForAlice 0) in
  let out2 :=
    FeedPermissionResource.resourceFeedPermissionDelete clients (snd out1) in
  fst out1 = Done None /\
  calls (snd out1) =
    [GetStorageKeyCall "aad.alice";
     ReadIdentityCall (Identity_Id Scenario.alice);
     SetFeedPermissionsCall "0f7e9a52-3c1b-4d6e-8a2f-5b9c7d1e4f60" ""
       [FeedPermissionResource.revocationOf Scenario.alice]] /\
  fst out2 =
    Done (Some (ErrorfWrap
                  "deleting feed Permission for Feed : %s and Identity : %s, Error: %+v"
                  ["0f7e9a52-3c1b-4d6e-8a2f-5b9c7d1e4f60"; "aad.alice"]
                  Scenario.notFoundError)) /\
  fst out2 <> Done None.
Proof.
  vm_compute. repeat split; try reflexivity. discriminate.
Qed.

(** * Further properties of the adapters *)

(** ** Feeds *)

Section MoreFeedProperties.
Import FeedResource.
Context {G : Type} (clients : AggregatedClient G).

(** X1. A successful read takes the identifier and the name from the reply,
    and the project from the reply when it names one; the other attributes
    are left alone.  A reply without a feed changes nothing. *)
Theorem resourceFeedRead_decodes (d : ResourceData) (g : G) :
  let reply := GetFeed clients (name d) (project_id d) g in
  let out := resourceFeedRead clients (start d g) in
  (forall getFeed id,
     fst reply = Ok (Some getFeed) ->
     Feed_Id getFeed = Some id ->
     fst out = Done None /\
     data (snd out) =
       {| Id := id;
          name := Feed_Name getFeed;
          project_id :=
            match Feed_Project getFeed with
            | Some project => ProjectReference_Id project
            | None => project_id d
            end;
          permanent_delete := permanent_delete d;
          restored := restored d |}) /\
  (fst reply = Ok None -> fst out = Done None /\ data (snd out) = d).
Proof.
  intros reply out. subst reply out.
  unfold resourceFeedRead. exec. split.
  - intros getFeed id Hreply Hid. rewrite Hreply. simpl. rewrite Hid. simpl.
    destruct (Feed_Project getFeed); simpl; auto.
  - intros Hreply. rewrite Hreply. simpl. auto.
Qed.

(** X2. A create call that succeeds, followed by a read that answers
    not-found: Create reports success although the identifier is left
    empty. *)
Theorem resourceFeedCreate_success_without_identifier
  (d : ResourceData) (g : G) (created : Feed) (e : error) :
  let q := GetFeedChange clients (name d) (project_id d) g in
  let newFeed :=
    {| Feed_Id := None; Feed_Name := name d; Feed_Project := None |} in
  let c := CreateFeed clients newFeed (project_id d) (snd q) in
  let out := resourceFeedCreate clients (start d g) in
  (forall change,
     fst q = Ok change -> ChangeType change <> ChangeTypeValues_Delete) ->
  fst c = Ok created ->
  fst (GetFeed clients (name d) (project_id d) (snd c)) = Err e ->
  ResponseWasNotFound e = true ->
  fst out = Done None /\
  Id (data (snd out)) = "" /\
  restored (data (snd out)) = false.
Proof.
  intros q newFeed c out Hnot Hc Hget Hnf. subst q newFeed c out.
  unfold resourceFeedCreate, isFeedRestorable, createFeed, resourceFeedRead.
  exec.
  destruct (fst (GetFeedChange clients (name d) (project_id d) g))
    as [change|e0] eqn:Hq; simpl.
  1: assert (Hfalse :
       String.eqb (ChangeType change) ChangeTypeValues_Delete = false)
       by (apply String.eqb_neq; apply Hnot; reflexivity);
     rewrite Hfalse; simpl.
  all: rewrite Hc; simpl; rewrite Hget; simpl; rewrite Hnf; simpl; auto.
Qed.

End MoreFeedProperties.

Lemma resourceFeedRead_decodes_witness :
  let out :=
    FeedResource.resourceFeedRead (Scripted.client Cases.readsProjectFeed)
      (start Scenario.feedA 0) in
  fst out = Done None /\
  FeedResource.Id (data (snd out)) = "0f7e9a52-3c1b-4d6e-8a2f-5b9c7d1e4f60" /\
  FeedResource.project_id (data (snd out)) =
    "7c9e6679-7425-40de-944b-e07fc1f90ae7".
Proof.
  destruct (resourceFeedRead_decodes (Scripted.client Cases.readsProjectFeed)
              Scenario.feedA 0%nat) as [H _].
  destruct (H Cases.projectFeed "0f7e9a52-3c1b-4d6e-8a2f-5b9c7d1e4f60"
              eq_refl eq_refl) as [H1 H2].
  cbv zeta. rewrite H2. simpl. auto.
Defined.

Lemma resourceFeedCreate_success_without_identifier_witness :
  let out :=
    FeedResource.resourceFeedCreate (Scripted.client Cases.vanishesAfterCreate)
      (start Scenario.feedA 0) in
  fst out = Done None /\ FeedResource.Id (data (snd out)) = "".
Proof.
  destruct (@resourceFeedCreate_success_without_identifier nat
              (Scripted.client Cases.vanishesAfterCreate) Scenario.feedA 0%nat
              Scenario.remoteFeedA Scenario.notFoundError)
    as (H1 & H2 & _).
  - intros change Hq. discriminate Hq.
  - reflexivity.
  - reflexivity.
  - reflexivity.
  - auto.
Defined.

(** ** Feed permissions *)

Section MoreFeedPermissionProperties.
Import FeedPermissionResource.
Context {G : Type} (clients : AggregatedClient G).

(** The scan of [getFeedPermission], as a search for the first grant with
    a given descriptor. *)
Lemma find_descriptor_none (permissions : list FeedPermission) (desc : string) :
  Forall (fun q => IdentityDescriptor q <> desc) permissions ->
  find (fun p => String.eqb (IdentityDescriptor p) desc) permissions = None.
Proof.
  induction 1 as [|q rest Hq _ IH]; simpl; [reflexivity|].
  apply String.eqb_neq in Hq. rewrite Hq. exact IH.
Qed.

Lemma find_descriptor_first (pre post : list FeedPermission)
  (p : FeedPermission) (desc : string) :
  Forall (fun q => IdentityDescriptor q <> desc) pre ->
  IdentityDescriptor p = desc ->
  find (fun p => String.eqb (IdentityDescriptor p) desc) (pre ++ p :: post)
    = Some p.
Proof.
  intros Hpre Hp. induction Hpre as [|q rest Hq _ IH]; simpl.
  - rewrite Hp, String.eqb_refl. reflexivity.
  - apply String.eqb_neq in Hq. rewrite Hq. exact IH.
Qed.

Lemma find_descriptor_split (permissions : list FeedPermission)
  (desc : string) (p : FeedPermission) :
  find (fun p => String.eqb (IdentityDescriptor p) desc) permissions = Some p ->
  exists pre post,
    permissions = pre ++ p :: post /\
    IdentityDescriptor p = desc /\
    Forall (fun q => IdentityDescriptor q <> desc) pre.
Proof.
  induction permissions as [|q rest IH]; simpl; [discriminate|].
  destruct (String.eqb (IdentityDescriptor q) desc) eqn:Hq.
  - intros [= ->]. exists [], rest. apply String.eqb_eq in Hq. auto.
  - intros Hfind. destruct (IH Hfind) as (pre & post & -> & Hp & Hpre).
    exists (q :: pre), post. apply String.eqb_neq in Hq. auto.
Qed.

(** X3. The lookup of the existing grant, once the identity is resolved and
    the grants are listed: it returns the first grant of the list whose
    descriptor is the one of the resolved identity; when no grant of the
    list has that descriptor it returns the identity together with an
    error that [ResponseWasNotFound] classifies as not-found. *)
Theorem getFeedPermission_selects (d : ResourceData) (g : G)
  (key : GraphStorageKeyResult) (principal : Identity)
  (permissions : list FeedPermission) :
  let k := GetStorageKey clients (identity_descriptor d) g in
  let i := ReadIdentity clients (StorageKey_Value key) (snd k) in
  let l := GetFeedPermissions clients (feed_id d) (project_id d) (snd i) in
  let r := fst (getFeedPermission clients (start d g)) in
  fst k = Ok key ->
  fst i = Ok principal ->
  fst l = Ok permissions ->
  (exists pre p post,
     permissions = pre ++ p :: post /\
     IdentityDescriptor p = Descriptor principal /\
     Forall (fun q => IdentityDescriptor q <> Descriptor principal) pre /\
     r = Done (Some p, Some principal, None)) \/
  (Forall (fun q => IdentityDescriptor q <> Descriptor principal) permissions /\
   exists e,
     r = Done (None, Some principal, Some e) /\
     ResponseWasNotFound e = true).
Proof.
  intros k i l r Hk Hi Hl. subst k i l r.
  unfold getFeedPermission, getIdentity. exec.
  rewrite Hk. simpl. rewrite Hi. simpl. rewrite Hl. simpl.
  destruct (find _ permissions) as [p|] eqn:Hfind; simpl.
  - left. destruct (find_descriptor_split _ _ Hfind)
      as (pre & post & Hsplit & Hp & Hpre).
    exists pre, p, post. auto.
  - right. split.
    + apply Forall_forall. intros q Hq Heq.
      pose proof (find_none _ _ Hfind q Hq) as Hno. simpl in Hno.
      rewrite Heq, String.eqb_refl in Hno. discriminate.
    + eexists. split; reflexivity.
Qed.

(** X4. Read of a grant that the feed does not list: the identity resolves,
    the grants are listed, none has the descriptor of the identity; the
    identifier is cleared, nothing else changes and no error is
    returned. *)
Theorem resourceFeedPermissionRead_missing_grant (d : ResourceData) (g : G)
  (key : GraphStorageKeyResult) (principal : Identity)
  (permissions : list FeedPermission) :
  let k := GetStorageKey clients (identity_descriptor d) g in
  let i := ReadIdentity clients (StorageKey_Value key) (snd k) in
  let l := GetFeedPermissions clients (feed_id d) (project_id d) (snd i) in
  let out := resourceFeedPermissionRead clients (start d g) in
  fst k = Ok key ->
  fst i = Ok principal ->
  fst l = Ok permissions ->
  Forall (fun q => IdentityDescriptor q <> Descriptor principal) permissions ->
  fst out = Done None /\
  data (snd out) = SetId "" d /\
  calls (snd out) =
    [GetStorageKeyCall (identity_descriptor d);
     ReadIdentityCall (StorageKey_Value key);
     GetFeedPermissionsCall (feed_id d) (project_id d)].
Proof.
  intros k i l out Hk Hi Hl Hnone. subst k i l out.
  unfold resourceFeedPermissionRead, getFeedPermission, getIdentity. exec.
  rewrite Hk. simpl. rewrite Hi. simpl. rewrite Hl. simpl.
  rewrite (find_descriptor_none Hnone). simpl. auto.
Qed.

(** X5. Read of a listed grant: the role and the display name are taken from
    the first grant with the descriptor of the resolved identity (the
    display name is kept when the grant has none), the identity id from
    the resolved identity; the identifier, the feed and the declared
    descriptor are left alone. *)
Theorem resourceFeedPermissionRead_decodes (d : ResourceData) (g : G)
  (key : GraphStorageKeyResult) (principal : Identity)
  (pre post : list FeedPermission) (p : FeedPermission) :
  let k := GetStorageKey clients (identity_descriptor d) g in
  let i := ReadIdentity clients (StorageKey_Value key) (snd k) in
  let l := GetFeedPermissions clients (feed_id d) (project_id d) (snd i) in
  let out := resourceFeedPermissionRead clients (start d g) in
  fst k = Ok key ->
  fst i = Ok principal ->
  fst l = Ok (pre ++ p :: post) ->
  Forall (fun q => IdentityDescriptor q <> Descriptor principal) pre ->
  IdentityDescriptor p = Descriptor principal ->
  fst out = Done None /\
  data (snd out) =
    {| Id := Id d;
       feed_id := feed_id d;
       identity_descriptor := identity_descriptor d;
       identity_id := Identity_Id principal;
       role := Role p;
       project_id := project_id d;
       display_name :=
         match DisplayName p with
         | Some n => n
         | None => display_name d
         end |}.
Proof.
  intros k i l out Hk Hi Hl Hpre Hp. subst k i l out.
  unfold resourceFeedPermissionRead, getFeedPermission, getIdentity. exec.
  rewrite Hk. simpl. rewrite Hi. simpl. rewrite Hl. simpl.
  rewrite (@find_descriptor_first pre post p _ Hpre Hp). simpl.
  destruct (DisplayName p); simpl; auto.
Qed.

(** The calls of the read never set a grant. *)
Lemma resourceFeedPermissionRead_sets_nothing (s : Session ResourceData G) :
  exists l,
    calls (snd (resourceFeedPermissionRead clients s)) = calls s ++ l /\
    count_calls isSetFeedPermissions l = 0.
Proof.
  unfold resourceFeedPermissionRead, getFeedPermission, getIdentity. exec.
  repeat split_reply;
    rewrite <- ?app_assoc; eexists; split; reflexivity.
Qed.

(** X6. Create for a principal without a grant: the identity resolves and the
    listing of the grants either succeeds without a grant for it or answers
    not-found.  Create then issues exactly one grant-setting call, which
    carries the declared display name and role with the descriptor and the
    id of the resolved identity.  When that call fails the wrapped error is
    returned and the resource data is left as it was; when it succeeds the
    identifier is set to a fresh one and the outcome is that of the read
    that follows. *)
Theorem resourceFeedPermissionCreate_sets_grant (d : ResourceData) (g : G)
  (key : GraphStorageKeyResult) (principal : Identity) :
  let k := GetStorageKey clients (identity_descriptor d) g in
  let i := ReadIdentity clients (StorageKey_Value key) (snd k) in
  let l := GetFeedPermissions clients (feed_id d) (project_id d) (snd i) in
  let grants :=
    [{| DisplayName := Some (display_name d);
        IdentityDescriptor := Descriptor principal;
        IdentityId := Some (Identity_Id principal);
        Role := role d |}] in
  let s := SetFeedPermissions clients (feed_id d) (project_id d) grants (snd l) in
  let log :=
    [GetStorageKeyCall (identity_descriptor d);
     ReadIdentityCall (StorageKey_Value key);
     GetFeedPermissionsCall (feed_id d) (project_id d);
     SetFeedPermissionsCall (feed_id d) (project_id d) grants] in
  let out := resourceFeedPermissionCreate clients (start d g) in
  fst k = Ok key ->
  fst i = Ok principal ->
  match fst l with
  | Ok permissions =>
      Forall (fun q => IdentityDescriptor q <> Descriptor principal) permissions
  | Err e => ResponseWasNotFound e = true
  end ->
  count_calls isSetFeedPermissions (calls (snd out)) = 1 /\
  match fst s with
  | Err e =>
      out =
        (Done (Some (ErrorfWrap
                       "creating feed Permission for Feed : %s and Identity : %s, Error: %+v"
                       [feed_id d; identity_descriptor d] e)),
         mkSession d (snd s) log)
  | Ok _ =>
      out =
        resourceFeedPermissionRead clients
          (mkSession (SetId ("fp-" ++ fst (NewUUID clients (snd s))) d)
             (snd (NewUUID clients (snd s))) log)
  end.
Proof.
  intros k i l grants s log out Hk Hi Hl. subst k i l grants s log out.
  unfold resourceFeedPermissionCreate, getFeedPermission, getIdentity,
    grantOf. exec.
  rewrite Hk. simpl. rewrite Hi. simpl.
  destruct (fst (GetFeedPermissions clients (feed_id d) (project_id d) _))
    as [permissions|e] eqn:Hlist; simpl.
  - rewrite (find_descriptor_none Hl). simpl.
    split_reply.
    + match goal with
      | |- context [resourceFeedPermissionRead clients ?s] =>
          destruct (resourceFeedPermissionRead_sets_nothing s)
            as (rest & Hcalls & Hnone)
      end.
      split; [|reflexivity].
      rewrite Hcalls. unfold count_calls in *. rewrite filter_app, length_app.
      simpl. simpl in Hnone. rewrite Hnone. reflexivity.
    + split; reflexivity.
  - rewrite Hl. simpl.
    split_reply.
    + match goal with
      | |- context [resourceFeedPermissionRead clients ?s] =>
          destruct (resourceFeedPermissionRead_sets_nothing s)
            as (rest & Hcalls & Hnone)
      end.
      split; [|reflexivity].
      rewrite Hcalls. unfold count_calls in *. rewrite filter_app, length_app.
      simpl. simpl in Hnone. rewrite Hnone. reflexivity.
    + split; reflexivity.
Qed.

(** X7. Create for a principal that does not resolve: when the identity lookup
    answers not-found, Create dereferences the missing identity and
    panics; no grant-setting call is issued and the resource data is left
    as it was. *)
Theorem resourceFeedPermissionCreate_unresolved_panics
  (d : ResourceData) (g : G) (e : error) :
  let out := resourceFeedPermissionCreate clients (start d g) in
  fst (getIdentity clients (start d g)) = Done (Err e) ->
  ResponseWasNotFound e = true ->
  (exists reason, fst out = Panicked reason) /\
  count_calls isSetFeedPermissions (calls (snd out)) = 0 /\
  count_calls isGetFeedPermissions (calls (snd out)) = 0 /\
  data (snd out) = d.
Proof.
  intros out Hlookup Hnf. subst out.
  unfold resourceFeedPermissionCreate, getFeedPermission.
  unfold getIdentity in *. exec.
  destruct (fst (GetStorageKey clients (identity_descriptor d) g))
    as [key|e1]; simpl in *.
  - destruct (fst (ReadIdentity clients (StorageKey_Value key) _))
      as [principal|e2]; simpl in *; [discriminate|].
    injection Hlookup as ->. rewrite Hnf. simpl.
    split; [eexists; reflexivity|auto].
  - injection Hlookup as ->. rewrite Hnf. simpl.
    split; [eexists; reflexivity|auto].
Qed.

(** X8. Update needs the grant to exist: whenever the lookup of the existing
    grant ends with an error, not-found included, Update returns that
    error, wrapped, issues no grant-setting call and leaves the resource
    data as it was. *)
Theorem resourceFeedPermissionUpdate_needs_grant (d : ResourceData) (g : G)
  (permission : option FeedPermission) (principal : option Identity)
  (e : error) :
  let lookup := getFeedPermission clients (start d g) in
  let out := resourceFeedPermissionUpdate clients (start d g) in
  fst lookup = Done (permission, principal, Some e) ->
  out =
    (Done (Some (ErrorfWrap "error reading feed permission during update: %+v"
                   [] e)),
     snd lookup) /\
  count_calls isSetFeedPermissions (calls (snd out)) = 0 /\
  data (snd out) = d.
Proof.
  intros lookup out Hlookup. subst out.
  assert (Hframe :
    data (snd lookup) = d /\
    count_calls isSetFeedPermissions (calls (snd lookup)) = 0).
  { subst lookup. unfold getFeedPermission, getIdentity. exec.
    repeat split_reply; split; reflexivity. }
  assert (Hrun :
    resourceFeedPermissionUpdate clients (start d g) =
    (Done (Some (ErrorfWrap "error reading feed permission during update: %+v"
                   [] e)),
     snd lookup)).
  { unfold resourceFeedPermissionUpdate.
    unfold bind at 1. unfold get_data at 1. cbv beta iota zeta.
    unfold bind at 1. fold lookup.
    destruct lookup as [[r|r] s'] eqn:Hrun; simpl in Hlookup; [|discriminate].
    injection Hlookup as ->. reflexivity. }
  rewrite Hrun. cbn [fst snd]. destruct Hframe as [Hdata Hcount]. auto.
Qed.

(** X9. Update of a listed grant: the identity resolves and the feed lists a
    grant for it.  Update issues exactly one grant-setting call, which
    carries the declared display name and role with the descriptor and the
    id of the resolved identity; when that call fails the wrapped error is
    returned and the resource data is left as it was. *)
Theorem resourceFeedPermissionUpdate_replaces_grant (d : ResourceData) (g : G)
  (key : GraphStorageKeyResult) (principal : Identity)
  (pre post : list FeedPermission) (p : FeedPermission) :
  let k := GetStorageKey clients (identity_descriptor d) g in
  let i := ReadIdentity clients (StorageKey_Value key) (snd k) in
  let l := GetFeedPermissions clients (feed_id d) (project_id d) (snd i) in
  let grants :=
    [{| DisplayName := Some (display_name d);
        IdentityDescriptor := Descriptor principal;
        IdentityId := Some (Identity_Id principal);
        Role := role d |}] in
  let s := SetFeedPermissions clients (feed_id d) (project_id d) grants (snd l) in
  let out := resourceFeedPermissionUpdate clients (start d g) in
  fst k = Ok key ->
  fst i = Ok principal ->
  fst l = Ok (pre ++ p :: post) ->
  Forall (fun q => IdentityDescriptor q <> Descriptor principal) pre ->
  IdentityDescriptor p = Descriptor principal ->
  count_calls isSetFeedPermissions (calls (snd out)) = 1 /\
  In (SetFeedPermissionsCall (feed_id d) (project_id d) grants)
     (calls (snd out)) /\
  (forall e,
     fst s = Err e ->
     fst out =
       Done (Some (ErrorfWrap
                     "updating feed Permission for Feed : %s and Identity : %s, Error: %+v"
                     [feed_id d; identity_descriptor d] e)) /\
     data (snd out) = d).
Proof.
  intros k i l grants s out Hk Hi Hl Hpre Hp. subst k i l grants s out.
  unfold resourceFeedPermissionUpdate, getFeedPermission, getIdentity,
    grantOf. exec.
  rewrite Hk. simpl. rewrite Hi. simpl. rewrite Hl. simpl.
  rewrite (@find_descriptor_first pre post p _ Hpre Hp). simpl.
  split_reply.
  - match goal with
    | |- context [resourceFeedPermissionRead clients ?s] =>
        destruct (resourceFeedPermissionRead_sets_nothing s)
          as (rest & Hcalls & Hnone)
    end.
    rewrite Hcalls. unfold count_calls in *. rewrite filter_app, length_app.
    simpl. simpl in Hnone. rewrite Hnone.
    split; [reflexivity|]. split; [|intros e He; discriminate He].
    simpl. auto 10.
  - split; [reflexivity|]. split; [simpl; auto 10|].
    intros e0 [= <-]. auto.
Qed.

End MoreFeedPermissionProperties.

Lemma getFeedPermission_selects_witness :
  fst (FeedPermissionResource.getFeedPermission
         (Scripted.client Scenario.alreadyGranted)
         (start Scenario.grantForAlice 0))
  = Done (Some Scenario.aliceGrant, Some Scenario.alice, None).
Proof.
  destruct (@getFeedPermission_selects nat
              (Scripted.client Scenario.alreadyGranted) Scenario.grantForAlice
              0%nat {| StorageKey_Value := Identity_Id Scenario.alice |}
              Scenario.alice [Scenario.aliceGrant] eq_refl eq_refl eq_refl)
    as [(pre & p & post & _ & _ & _ & H) | (_ & e & H & _)];
    simpl in H; [reflexivity|discriminate H].
Defined.

Lemma resourceFeedPermissionRead_missing_grant_witness :
  let out :=
    FeedPermissionResource.resourceFeedPermissionRead
      (Scripted.client Scenario.noGrant)
      (start (FeedPermissionResource.SetId "fp-1" Scenario.grantForAlice) 0) in
  fst out = Done None /\ FeedPermissionResource.Id (data (snd out)) = "".
Proof.
  destruct (@resourceFeedPermissionRead_missing_grant nat
              (Scripted.client Scenario.noGrant)
              (FeedPermissionResource.SetId "fp-1" Scenario.grantForAlice)
              0%nat {| StorageKey_Value := Identity_Id Scenario.alice |}
              Scenario.alice [] eq_refl eq_refl eq_refl (Forall_nil _))
    as (H1 & H2 & _).
  cbv zeta. rewrite H2. split; [exact H1|reflexivity].
Defined.

Lemma resourceFeedPermissionRead_decodes_witness :
  let out :=
    FeedPermissionResource.resourceFeedPermissionRead
      (Scripted.client Scenario.alreadyGranted)
      (start Scenario.grantForAlice 0) in
  fst out = Done None /\
  FeedPermissionResource.role (data (snd out)) = FeedRoleValues_Reader /\
  FeedPermissionResource.identity_id (data (snd out)) =
    Identity_Id Scenario.alice.
Proof.
  destruct (@resourceFeedPermissionRead_decodes nat
              (Scripted.client Scenario.alreadyGranted) Scenario.grantForAlice
              0%nat {| StorageKey_Value := Identity_Id Scenario.alice |}
              Scenario.alice [] [] Scenario.aliceGrant
              eq_refl eq_refl eq_refl (Forall_nil _) eq_refl)
    as (H1 & H2).
  cbv zeta. rewrite H2. split; [exact H1|split; reflexivity].
Defined.

Lemma resourceFeedPermissionCreate_sets_grant_witness :
  let out :=
    FeedPermissionResource.resourceFeedPermissionCreate
      (Scripted.client Scenario.noGrant) (start Scenario.grantForAlice 0) in
  count_calls isSetFeedPermissions (calls (snd out)) = 1.
Proof.
  destruct (@resourceFeedPermissionCreate_sets_grant nat
              (Scripted.client Scenario.noGrant) Scenario.grantForAlice 0%nat
              {| StorageKey_Value := Identity_Id Scenario.alice |}
              Scenario.alice eq_refl eq_refl (Forall_nil _))
    as [H _].
  exact H.
Defined.

Lemma resourceFeedPermissionCreate_unresolved_panics_witness :
  let out :=
    FeedPermissionResource.resourceFeedPermissionCreate
      (Scripted.client Scenario.gone) (start Scenario.grantForAlice 0) in
  (exists reason, fst out = Panicked reason) /\
  calls (snd out) = [GetStorageKeyCall "aad.alice"].
Proof.
  destruct (@resourceFeedPermissionCreate_unresolved_panics nat
              (Scripted.client Scenario.gone) Scenario.grantForAlice 0%nat
              Scenario.notFoundError eq_refl eq_refl)
    as (H & _).
  split; [exact H|reflexivity].
Defined.

Lemma resourceFeedPermissionUpdate_needs_grant_witness :
  let out :=
    FeedPermissionResource.resourceFeedPermissionUpdate
      (Scripted.client Scenario.noGrant) (start Scenario.grantForAlice 0) in
  (exists e, fst out = Done (Some e)) /\
  count_calls isSetFeedPermissions (calls (snd out)) = 0.
Proof.
  destruct (@resourceFeedPermissionUpdate_needs_grant nat
              (Scripted.client Scenario.noGrant) Scenario.grantForAlice 0%nat
              None (Some Scenario.alice)
              (WrappedError (Some StatusNotFound)
                 (FeedPermissionResource.permissionNotFoundMessage
                    "0f7e9a52-3c1b-4d6e-8a2f-5b9c7d1e4f60" "aad.alice"))
              eq_refl)
    as (H1 & H2 & _).
  cbv zeta. split; [|exact H2].
  rewrite H1. eexists. reflexivity.
Defined.

(** ** Audit streams *)

(** [strconv.Itoa] never writes a plus sign, and [strconv.Atoi] reads back
    what it wrote. *)
Lemma Atoi_Itoa (z : Z) :
  (int_min <= z <= int_max)%Z -> Atoi (Itoa z) = Ok z.
Proof.
  intros Hrange.
  assert (Hparse : NilZero.int_of_string (Itoa z) = Some (Z.to_int z)).
  { unfold Itoa. apply NilZero.isi.
    - destruct z as [|p|p]; simpl; try discriminate.
      intros [= H]. revert H. apply DecimalPos.Unsigned.to_uint_nonnil.
    - destruct z as [|p|p]; simpl; try discriminate.
      intros [= H]. revert H. apply DecimalPos.Unsigned.to_uint_nonnil. }
  unfold Atoi.
  assert (Hbody :
    match Itoa z with
    | String "+"%char rest =>
        option_map Z.of_uint (NilZero.uint_of_string rest)
    | _ => option_map Z.of_int (NilZero.int_of_string (Itoa z))
    end = Some z).
  { destruct (Itoa z) as [|a rest] eqn:Hs; [discriminate Hparse|].
    destruct (Ascii.eqb_spec a "+"%char) as [->|Hplus].
    - simpl in Hparse. destruct (NilEmpty.uint_of_string rest);
        discriminate Hparse.
    - rewrite Hparse. simpl. rewrite DecimalZ.of_to.
      destruct a as [[] [] [] [] [] [] [] []]; try reflexivity.
      exfalso. apply Hplus. reflexivity. }
  rewrite Hbody.
  destruct Hrange as [Hlo Hhi].
  apply Z.leb_le in Hlo. apply Z.leb_le in Hhi. rewrite Hlo, Hhi. reflexivity.
Qed.

Section MoreAuditProperties.
Import AuditResource.
Context {G : Type} (clients : AggregatedClient G).

(** X10. Round trip of the base attributes: after [doBaseFlattening] has
    stored a stream whose identifier fits an [int], [doBaseExpansion] reads
    back a stream with that identifier, and the backfill days and the
    enabled flag that were stored. *)
Theorem doBaseExpansion_after_doBaseFlattening
  (auditStream : AuditStream) (id daysToBackfill : Z) (enabled : bool)
  (s : Session ResourceData G) :
  let flattened :=
    doBaseFlattening auditStream daysToBackfill enabled s in
  AuditStream_Id auditStream = Some id ->
  (int_min <= id <= int_max)%Z ->
  fst flattened = Done tt /\
  doBaseExpansion (snd flattened) =
    (Done ({| AuditStream_DisplayName := None;
              AuditStream_Id := Some id;
              AuditStream_Status := None |}, daysToBackfill, enabled),
     snd flattened).
Proof.
  intros flattened Hid Hrange. subst flattened.
  unfold doBaseFlattening, doBaseExpansion. exec.
  rewrite Hid. simpl. rewrite (Atoi_Itoa Hrange). auto.
Qed.

(** X11. An identifier that is not a decimal integer, the empty one included:
    Read returns the parse error, wrapped, and Delete returns it as it is;
    neither issues a remote call nor touches the resource data. *)
Theorem audit_unparsable_identifier (flat : flatFunc (G := G))
  (d : ResourceData) (g : G) (e : error) :
  Atoi (Id d) = Err e ->
  genAuditStreamReadFunc clients flat (start d g) =
    (Done (Some (ErrorfWrap
                   "Error parsing the audit stream ID from the Terraform resource data: %v"
                   [] e)),
     start d g) /\
  genAuditStreamDeleteFunc clients (start d g) =
    (Done (Some e), start d g).
Proof.
  intros Hid.
  unfold genAuditStreamReadFunc, genAuditStreamDeleteFunc. exec.
  rewrite Hid. split; reflexivity.
Qed.

(** X12. Update does not check the stored identifier: with the base expansion
    its first call is always [UpdateStream], carrying the parsed identifier
    or none when it does not parse.  When that call fails the wrapped error
    is returned, nothing else is called and the resource data is left as it
    was. *)
Theorem genAuditStreamUpdateFunc_sends_request (d : ResourceData) (g : G) :
  let request :=
    {| AuditStream_DisplayName := None;
       AuditStream_Id :=
         match Atoi (Id d) with
         | Ok parsedId => Some parsedId
         | Err _ => None
         end;
       AuditStream_Status := None |} in
  let u := UpdateStream clients request g in
  let out :=
    genAuditStreamUpdateFunc clients (doBaseFlattening (G := G))
      (doBaseExpansion (G := G)) (start d g) in
  (exists rest, calls (snd out) = UpdateStreamCall request :: rest) /\
  (forall e,
     fst u = Err e ->
     out =
       (Done (Some (ErrorfWrap errMsgUpdateAuditStream [] e)),
        mkSession d (snd u) [UpdateStreamCall request])).
Proof.
  intros request u out. subst request u out.
  unfold genAuditStreamUpdateFunc, doBaseExpansion, updateAuditStream,
    setStreamStatusState, doBaseFlattening, genAuditStreamReadFunc,
    readAuditStream.
  exec. split.
  - repeat (split_reply ||
            match goal with
            | |- context [match Atoi ?x with _ => _ end] =>
                destruct (Atoi x) eqn:?; simpl in *
            end);
      eexists; reflexivity.
  - intros e He. rewrite He. reflexivity.
Qed.

(** X13. Read with the base flattening never changes the declared backfill
    days, the enabled flag or the timeout, whatever the remote answers, and
    issues at most one call, a query of the stream. *)
Theorem genAuditStreamReadFunc_keeps_declared (d : ResourceData) (g : G) :
  let out :=
    genAuditStreamReadFunc clients (doBaseFlattening (G := G)) (start d g) in
  days_to_backfill (data (snd out)) = days_to_backfill d /\
  enabled (data (snd out)) = enabled d /\
  Timeout_Create (data (snd out)) = Timeout_Create d /\
  (calls (snd out) = [] \/
   exists streamId, calls (snd out) = [QueryStreamByIdCall streamId]).
Proof.
  intros out. subst out.
  unfold genAuditStreamReadFunc, doBaseFlattening, readAuditStream. exec.
  destruct (Atoi (Id d)) as [streamId|e]; simpl; [|auto].
  repeat split_reply; repeat split; eauto.
Qed.

(** X14. What a successful read stores with the base flattening: a reply
    without an identifier clears the stored one and leaves the name alone;
    a reply with an identifier stores that identifier, in decimal, and the
    display name of the reply when it has one. *)
Theorem genAuditStreamReadFunc_decodes (d : ResourceData) (g : G)
  (streamId : Z) (auditStream : AuditStream) :
  let out :=
    genAuditStreamReadFunc clients (doBaseFlattening (G := G)) (start d g) in
  Atoi (Id d) = Ok streamId ->
  fst (QueryStreamById clients streamId g) = Ok auditStream ->
  fst out = Done None /\
  Id (data (snd out)) =
    match AuditStream_Id auditStream with
    | Some id => Itoa id
    | None => ""
    end /\
  (forall id displayName,
     AuditStream_Id auditStream = Some id ->
     AuditStream_DisplayName auditStream = Some displayName ->
     name (data (snd out)) = displayName) /\
  (AuditStream_Id auditStream = None -> name (data (snd out)) = name d).
Proof.
  intros out Hid Hq. subst out.
  unfold genAuditStreamReadFunc, doBaseFlattening, readAuditStream. exec.
  rewrite Hid. simpl. rewrite Hq. simpl.
  destruct (AuditStream_Id auditStream); simpl.
  - split; [reflexivity|]. split; [reflexivity|].
    split; [|discriminate].
    intros id displayName _ Hname. rewrite Hname. reflexivity.
  - split; [reflexivity|]. split; [reflexivity|].
    split; [discriminate|reflexivity].
Qed.

(** X15. The status-update call and the values.  When the stream has no status
    or a status whose value differs from the one the flag asks for,
    [setStreamStatusState] issues the status update with the desired status
    and returns what the remote answers.  When the status of the stream is
    the very constant the flag asks for, nothing is called and the stream is
    returned as it is. *)
Theorem setStreamStatusState_by_value (stream : AuditStream) (flag : bool)
  (s : Session ResourceData G) :
  let field := if flag then FEnabled else FDisabledByUser in
  let desired := Some (AddrOfValues field) in
  (match AuditStream_Status stream with
   | Some status => deref_status status <> AuditStreamStatusValues field
   | None => True
   end ->
   setStreamStatusState clients stream flag s =
     (Done (fst (UpdateStatus clients (AuditStream_Id stream) desired
                   (remote s))),
      mkSession (data s)
        (snd (UpdateStatus clients (AuditStream_Id stream) desired (remote s)))
        (calls s ++ [UpdateStatusCall (AuditStream_Id stream) desired]))) /\
  (AuditStream_Status stream = desired ->
   setStreamStatusState clients stream flag s = (Done (Ok stream), s)).
Proof.
  intros field desired. subst field desired.
  unfold setStreamStatusState. split.
  - intros Hdiff.
    destruct flag; simpl;
      destruct (AuditStream_Status stream) as [[f|addr content]|];
      simpl; try reflexivity;
      destruct f; simpl in *; try reflexivity; congruence.
  - intros ->. destruct flag; reflexivity.
Qed.

(** X17. A status update that fails after the stream was created and has
    stabilized: Create returns the wrapped error right after the status
    call, and the resource data is left as it was, so the identifier of the
    created stream is not recorded. *)
Theorem genAuditStreamCreateFunc_failed_status_update
  (flat : flatFunc) (expand : expandFunc (G := G))
  (d : ResourceData) (g : G)
  (stream created : AuditStream) (daysToBackfill : Z) (flag : bool)
  (streamId : Z) (stable : option AuditStream) (e : error) :
  let c := CreateStream clients stream daysToBackfill g in
  let waiting :=
    WaitForState (stateConf clients streamId (Timeout_Create d))
      (mkSession d (snd c) [CreateStreamCall stream daysToBackfill]) in
  let desired :=
    Some (AddrOfValues (if flag then FEnabled else FDisabledByUser)) in
  let u :=
    UpdateStatus clients (AuditStream_Id created) desired
      (remote (snd waiting)) in
  let out := genAuditStreamCreateFunc clients flat expand (start d g) in
  expand (start d g) = (Done (stream, daysToBackfill, flag), start d g) ->
  fst c = Ok created ->
  AuditStream_Id created = Some streamId ->
  fst waiting = Done (Ok stable) ->
  ptr_eqb (AuditStream_Status created) desired = false ->
  fst u = Err e ->
  fst out = Done (Some (ErrorfWrap errMsgUpdateAuditStream [] e)) /\
  data (snd out) = d /\
  calls (snd out) =
    calls (snd waiting) ++ [UpdateStatusCall (AuditStream_Id created) desired].
Proof.
  intros c waiting desired u out Hexpand Hc Hid Hwait Hptr Hu.
  subst c desired u out.
  assert (Hdata : data (snd waiting) = d)
    by (subst waiting; unfold WaitForState; apply pollLoop_data).
  assert (Hrun :
    genAuditStreamCreateFunc clients flat expand (start d g) =
    (Done (Some (ErrorfWrap errMsgUpdateAuditStream [] e)),
     mkSession (data (snd waiting))
       (snd (UpdateStatus clients (AuditStream_Id created)
               (Some (AddrOfValues (if flag then FEnabled else FDisabledByUser)))
               (remote (snd waiting))))
       (calls (snd waiting) ++
        [UpdateStatusCall (AuditStream_Id created)
           (Some (AddrOfValues (if flag then FEnabled else FDisabledByUser)))]))).
  { unfold genAuditStreamCreateFunc.
    unfold bind at 1. rewrite Hexpand. cbn [fst snd].
    unfold bind at 1. unfold get_data at 1. cbn [data start].
    unfold bind at 1.
    rewrite (@createAuditStream_run G clients stream daysToBackfill
               (Timeout_Create d) d g created streamId Hc Hid).
    fold waiting. rewrite Hwait. cbv beta iota.
    unfold bind at 1. unfold setStreamStatusState.
    destruct flag; simpl in Hptr |- *; rewrite Hptr; simpl;
      unfold invoke; simpl; rewrite Hu; reflexivity. }
  rewrite Hrun. cbn [fst snd data calls]. auto.
Qed.

(** X16. A create call that fails, or that answers with a stream without an
    identifier: in the first case Create returns the wrapped error, in the
    second it panics on the missing identifier; in both cases the create
    call is the only call, no status read follows it, and the resource data
    is left as it was. *)
Theorem genAuditStreamCreateFunc_failed_create
  (flat : flatFunc) (expand : expandFunc (G := G))
  (d : ResourceData) (g : G)
  (stream : AuditStream) (daysToBackfill : Z) (flag : bool) :
  let c := CreateStream clients stream daysToBackfill g in
  let after :=
    mkSession d (snd c) [CreateStreamCall stream daysToBackfill] in
  let out := genAuditStreamCreateFunc clients flat expand (start d g) in
  expand (start d g) = (Done (stream, daysToBackfill, flag), start d g) ->
  (forall e,
     fst c = Err e ->
     out =
       (Done (Some (ErrorfWrap
                      "Error creating audit stream in Azure DevOps: %+v" [] e)),
        after)) /\
  (forall created,
     fst c = Ok created ->
     AuditStream_Id created = None ->
     snd out = after /\ exists reason, fst out = Panicked reason).
Proof.
  intros c after out Hexpand. subst c after out.
  assert (Hout :
    forall k : AuditStream * Z * bool -> Action (G := G) (option error),
      bind expand k (start d g) = k (stream, daysToBackfill, flag) (start d g)).
  { intros k. unfold bind at 1. rewrite Hexpand. reflexivity. }
  unfold genAuditStreamCreateFunc. rewrite Hout.
  unfold createAuditStream. exec. split.
  - intros e He. rewrite He. reflexivity.
  - intros created Hc Hid. rewrite Hc. simpl. rewrite Hid. simpl.
    split; [reflexivity|eexists; reflexivity].
Qed.

(** X18. The status decision after a create looks at the reply of the create
    call, not at what the stabilization reads returned: once the wait has
    succeeded, the status update is issued exactly when the status pointer
    of the created stream is not the constant the flag asks for, and it is
    the only status update of the run. *)
Theorem genAuditStreamCreateFunc_status_from_create_reply
  (expand : expandFunc (G := G)) (d : ResourceData) (g : G)
  (stream created : AuditStream) (daysToBackfill : Z) (flag : bool)
  (streamId : Z) (stable : option AuditStream) :
  let c := CreateStream clients stream daysToBackfill g in
  let waiting :=
    WaitForState (stateConf clients streamId (Timeout_Create d))
      (mkSession d (snd c) [CreateStreamCall stream daysToBackfill]) in
  let desired :=
    Some (AddrOfValues (if flag then FEnabled else FDisabledByUser)) in
  let out :=
    genAuditStreamCreateFunc clients (doBaseFlattening (G := G)) expand
      (start d g) in
  expand (start d g) = (Done (stream, daysToBackfill, flag), start d g) ->
  fst c = Ok created ->
  AuditStream_Id created = Some streamId ->
  fst waiting = Done (Ok stable) ->
  exists rest,
    calls (snd out) =
      calls (snd waiting) ++
      (if ptr_eqb (AuditStream_Status created) desired then []
       else [UpdateStatusCall (AuditStream_Id created) desired]) ++ rest /\
    count_calls isUpdateStatus rest = 0.
Proof.
  intros c waiting desired out Hexpand Hc Hid Hwait. subst c desired out.
  assert (Hout :
    forall k : AuditStream * Z * bool -> Action (G := G) (option error),
      bind expand k (start d g) = k (stream, daysToBackfill, flag) (start d g)).
  { intros k. unfold bind at 1. rewrite Hexpand. reflexivity. }
  unfold genAuditStreamCreateFunc. rewrite Hout. cbn [fst snd].
  unfold bind at 1. unfold get_data at 1. cbn [data start].
  unfold bind at 1.
  rewrite (@createAuditStream_run G clients stream daysToBackfill
             (Timeout_Create d) d g created streamId Hc Hid).
  fold waiting. rewrite Hwait. cbv beta iota.
  generalize (snd waiting). intros s.
  unfold setStreamStatusState, genAuditStreamReadFunc, doBaseFlattening,
    readAuditStream.
  destruct flag; exec.
  all: destruct (ptr_eqb (AuditStream_Status created) _); simpl.
  all: repeat (split_reply ||
               match goal with
               | |- context [match Atoi ?x with _ => _ end] =>
                   destruct (Atoi x) eqn:?; simpl in *
               end).
  all: rewrite <- ?app_assoc; simpl; eexists; split;
    [try reflexivity; rewrite ?app_nil_r; reflexivity | reflexivity].
Qed.

End MoreAuditProperties.

Lemma doBaseExpansion_after_doBaseFlattening_witness :
  let flattened :=
    AuditResource.doBaseFlattening (Scenario.heapStream 0 FEnabled) 3%Z false
      (start Scenario.newStream 0%nat) in
  fst (AuditResource.doBaseExpansion (snd flattened)) =
    Done ({| AuditStream_DisplayName := None;
             AuditStream_Id := Some 7%Z;
             AuditStream_Status := None |}, 3%Z, false).
Proof.
  destruct (@doBaseExpansion_after_doBaseFlattening nat
              (Scenario.heapStream 0 FEnabled) 7%Z 3%Z false
              (start Scenario.newStream 0%nat) eq_refl)
    as [_ H].
  - split; discriminate.
  - cbv zeta. rewrite H. reflexivity.
Defined.

Lemma audit_unparsable_identifier_witness :
  (exists e,
     fst (AuditResource.genAuditStreamReadFunc (Scripted.client Scenario.broken)
            (AuditResource.doBaseFlattening (G := nat))
            (start Cases.oddStream 0%nat)) = Done (Some e)) /\
  AuditResource.genAuditStreamDeleteFunc (Scripted.client Scenario.broken)
    (start Scenario.newStream 0%nat) =
    (Done (Some (NumError "Atoi" "")), start Scenario.newStream 0%nat).
Proof.
  split.
  - destruct (@audit_unparsable_identifier nat (Scripted.client Scenario.broken)
                (AuditResource.doBaseFlattening (G := nat)) Cases.oddStream
                0%nat (NumError "Atoi" "seven") eq_refl) as [H _].
    rewrite H. eexists. reflexivity.
  - destruct (@audit_unparsable_identifier nat (Scripted.client Scenario.broken)
                (AuditResource.doBaseFlattening (G := nat)) Scenario.newStream
                0%nat (NumError "Atoi" "") eq_refl) as [_ H].
    exact H.
Defined.

Lemma genAuditStreamUpdateFunc_sends_request_witness :
  let out :=
    AuditResource.genAuditStreamUpdateFunc (Scripted.client Scenario.broken)
      (AuditResource.doBaseFlattening (G := nat))
      (AuditResource.doBaseExpansion (G := nat))
      (start Cases.oddStream 0%nat) in
  fst out =
    Done (Some (ErrorfWrap AuditResource.errMsgUpdateAuditStream []
                  Scenario.serverError)) /\
  calls (snd out) = [UpdateStreamCall Scenario.newStreamRequest].
Proof.
  destruct (@genAuditStreamUpdateFunc_sends_request nat
              (Scripted.client Scenario.broken) Cases.oddStream 0%nat)
    as [_ H].
  cbv zeta. rewrite (H Scenario.serverError eq_refl).
  split; reflexivity.
Defined.

Lemma genAuditStreamReadFunc_decodes_witness :
  let out :=
    AuditResource.genAuditStreamReadFunc
      (Scripted.client Scenario.enabledAtOnce)
      (AuditResource.doBaseFlattening (G := nat))
      (start Scenario.stream7 0%nat) in
  fst out = Done None /\
  AuditResource.Id (data (snd out)) = "7" /\
  AuditResource.name (data (snd out)) = "stream".
Proof.
  destruct (@genAuditStreamReadFunc_decodes nat
              (Scripted.client Scenario.enabledAtOnce) Scenario.stream7 0%nat
              7%Z (Scenario.heapStream 0 FEnabled) eq_refl eq_refl)
    as (H1 & H2 & H3 & _).
  split; [exact H1|]. split; [exact H2|].
  exact (H3 7%Z "stream" eq_refl eq_refl).
Defined.

Lemma setStreamStatusState_by_value_witness :
  calls (snd (AuditResource.setStreamStatusState
                (Scripted.client Scenario.enabledAtOnce)
                (Scenario.heapStream 0 FBackfilling) true
                (start Scenario.newStream 1%nat))) =
    [UpdateStatusCall (Some 7%Z) (Some (AddrOfValues FEnabled))] /\
  AuditResource.setStreamStatusState (Scripted.client Scenario.enabledAtOnce)
    (Cases.constantStream FEnabled) true (start Scenario.newStream 1%nat) =
    (Done (Ok (Cases.constantStream FEnabled)),
     start Scenario.newStream 1%nat).
Proof.
  split.
  - destruct (@setStreamStatusState_by_value nat
                (Scripted.client Scenario.enabledAtOnce)
                (Scenario.heapStream 0 FBackfilling) true
                (start Scenario.newStream 1%nat)) as [H _].
    rewrite H; [reflexivity|]. simpl. discriminate.
  - destruct (@setStreamStatusState_by_value nat
                (Scripted.client Scenario.enabledAtOnce)
                (Cases.constantStream FEnabled) true
                (start Scenario.newStream 1%nat)) as [_ H].
    apply H. reflexivity.
Defined.

Lemma genAuditStreamCreateFunc_failed_status_update_witness :
  let out :=
    AuditResource.genAuditStreamCreateFunc
      (Scripted.client Cases.statusUpdateRefused)
      (AuditResource.doBaseFlattening (G := nat))
      (AuditResource.doBaseExpansion (G := nat))
      (start Scenario.newStream 0%nat) in
  fst out =
    Done (Some (ErrorfWrap AuditResource.errMsgUpdateAuditStream []
                  Scenario.serverError)) /\
  AuditResource.Id (data (snd out)) = "".
Proof.
  destruct (@genAuditStreamCreateFunc_failed_status_update nat
              (Scripted.client Cases.statusUpdateRefused)
              (AuditResource.doBaseFlattening (G := nat))
              (AuditResource.doBaseExpansion (G := nat))
              Scenario.newStream 0%nat Scenario.newStreamRequest
              (Scenario.heapStream 0 FEnabled) 0%Z true 7%Z
              (Some (Scenario.heapStream 1 FEnabled)) Scenario.serverError
              eq_refl eq_refl eq_refl eq_refl eq_refl eq_refl)
    as (H1 & H2 & _).
  cbv zeta. rewrite H2. split; [exact H1|reflexivity].
Defined.

(** ** Group entitlements *)

Section MoreGroupEntitlementProperties.
Import GroupEntitlementResource.
Context {G : Type} (clients : AggregatedClient G).
Variable converter_AccountLicenseType : string -> result string.
Variable converter_AccountLicensingSource : string -> result string.
Variable uuid_Parse : string -> result string.

Lemma Contains_append (a b : string) (sep : ascii) :
  Contains (a ++ String sep b) sep = true.
Proof.
  induction a as [|c a IH]; simpl.
  - rewrite Ascii.eqb_refl. reflexivity.
  - rewrite IH. apply orb_true_r.
Qed.

Lemma Split_plain (b : string) (sep : ascii) :
  Contains b sep = false -> Split b sep = [b].
Proof.
  induction b as [|c b IH]; simpl; [reflexivity|].
  intros H. apply orb_false_iff in H. destruct H as [Hc Hb].
  rewrite Hc, (IH Hb). reflexivity.
Qed.

Lemma Split_head (a b : string) (sep : ascii) :
  Contains a sep = false ->
  Split (a ++ String sep b) sep = a :: Split b sep.
Proof.
  induction a as [|c a IH]; simpl.
  - intros _. rewrite Ascii.eqb_refl. reflexivity.
  - intros H. apply orb_false_iff in H. destruct H as [Hc Ha].
    rewrite Hc, (IH Ha). reflexivity.
Qed.

(** A run of the encoder ends normally and leaves the session alone. *)
Lemma expandGroupEntitlement_runs (s : Session ResourceData G) :
  exists r,
    expandGroupEntitlement converter_AccountLicenseType
      converter_AccountLicensingSource s = (Done r, s).
Proof.
  unfold expandGroupEntitlement. exec.
  destruct (Nat.ltb 0 (String.length (principal_name (data s)))
            && Contains (principal_name (data s)) backslash)%bool eqn:Hc.
  - apply andb_true_iff in Hc. destruct Hc as [_ Hc].
    destruct (@Split_second _ _ Hc) as [part Hpart].
    destruct (Split (principal_name (data s)) backslash) as [|h t];
      [discriminate|].
    simpl in Hpart. simpl. rewrite Hpart. simpl.
    repeat match goal with
           | |- context [if ?b then _ else _] => destruct b
           | |- context [match ?c ?x with Ok _ => _ | Err _ => _ end] =>
               destruct (c x)
           end; eexists; reflexivity.
  - simpl.
    repeat match goal with
           | |- context [if ?b then _ else _] => destruct b
           | |- context [match ?c ?x with Ok _ => _ | Err _ => _ end] =>
               destruct (c x)
           end; eexists; reflexivity.
Qed.

(** X19. The encoder is safe and local: whatever the declared state, it neither
    panics (the part after the backslash is only taken from a principal
    name that has one) nor issues a call nor touches the resource data. *)
Theorem expandGroupEntitlement_never_panics (s : Session ResourceData G) :
  exists r,
    expandGroupEntitlement converter_AccountLicenseType
      converter_AccountLicensingSource s = (Done r, s).
Proof.
  unfold expandGroupEntitlement. exec.
  destruct (Nat.ltb 0 (String.length (principal_name (data s)))
            && Contains (principal_name (data s)) backslash)%bool eqn:Hc.
  - apply andb_true_iff in Hc. destruct Hc as [_ Hc].
    destruct (@Split_second _ _ Hc) as [part Hpart].
    destruct (Split (principal_name (data s)) backslash) as [|h t];
      [discriminate|].
    simpl in Hpart. simpl. rewrite Hpart. simpl.
    repeat match goal with
           | |- context [if ?b then _ else _] => destruct b
           | |- context [match ?c ?x with Ok _ => _ | Err _ => _ end] =>
               destruct (c x)
           end; eexists; reflexivity.
  - simpl.
    repeat match goal with
           | |- context [if ?b then _ else _] => destruct b
           | |- context [match ?c ?x with Ok _ => _ | Err _ => _ end] =>
               destruct (c x)
           end; eexists; reflexivity.
Qed.

(** X20. A group declared by a principal name of the form domain, backslash,
    group name, without an origin id: the encoder takes the display name
    from the principal name, whatever display name is declared, marks the
    subject as a group and sends an empty origin id. *)
Theorem expandGroupEntitlement_display_name
  (d : ResourceData) (g : G) (domain group license source : string) :
  principal_name d = (domain ++ String backslash group)%string ->
  Contains domain backslash = false ->
  Contains group backslash = false ->
  origin_id d = "" ->
  converter_AccountLicenseType (account_license_type d) = Ok license ->
  converter_AccountLicensingSource (licensing_source d) = Ok source ->
  fst (expandGroupEntitlement converter_AccountLicenseType
         converter_AccountLicensingSource (start d g)) =
  Done (Ok {| GroupEntitlement_Id := None;
              LicenseRule :=
                {| AccountLicenseType := license;
                   LicensingSource := source |};
              Group :=
                {| Group_Descriptor := None;
                   Group_Origin := origin d;
                   Group_OriginId := Some "";
                   Group_DisplayName := group;
                   Group_PrincipalName := principal_name d;
                   Group_SubjectKind := "group" |} |}).
Proof.
  intros Hp Hdomain Hgroup Ho Hl Hs.
  unfold expandGroupEntitlement. exec.
  rewrite Ho, Hl, Hs, Hp.
  rewrite Contains_append, (@Split_head domain group backslash Hdomain),
    (@Split_plain group backslash Hgroup).
  assert (Hlen :
    Nat.ltb 0 (String.length (domain ++ String backslash group)) = true).
  { destruct domain; reflexivity. }
  rewrite Hlen. simpl.
  assert (Hnz :
    Nat.eqb (String.length (domain ++ String backslash group)) 0 = false).
  { destruct domain; reflexivity. }
  rewrite Hnz. reflexivity.
Qed.

(** X21. Decoding and encoding do not compose: the state that
    [flattenGroupEntitlement] stores for a group with an origin id and a
    principal name, as the remote returns them, is rejected by
    [expandGroupEntitlement] because both are set. *)
Theorem expandGroupEntitlement_after_flatten
  (groupEntitlement : GroupEntitlement) (id desc originId : string)
  (s : Session ResourceData G) :
  let flattened := flattenGroupEntitlement groupEntitlement s in
  GroupEntitlement_Id groupEntitlement = Some id ->
  Group_Descriptor (Group groupEntitlement) = Some desc ->
  Group_OriginId (Group groupEntitlement) = Some originId ->
  originId <> "" ->
  Group_PrincipalName (Group groupEntitlement) <> "" ->
  fst flattened = Done tt /\
  fst (expandGroupEntitlement converter_AccountLicenseType
         converter_AccountLicensingSource (snd flattened)) =
  Done (Err (Errorf
               "Both origin_id and principal_name set. You can not use both: origin_id: %s principal_name %s"
               [originId; Group_PrincipalName (Group groupEntitlement)])).
Proof.
  intros flattened Hid Hdesc Horigin Ho Hp. subst flattened.
  apply nonempty_length in Ho. apply nonempty_length in Hp.
  unfold flattenGroupEntitlement, expandGroupEntitlement. exec.
  rewrite Hid. simpl. rewrite Hdesc. simpl. rewrite Horigin.
  split; [reflexivity|].
  rewrite Ho, Hp. simpl.
  destruct (Contains (Group_PrincipalName (Group groupEntitlement)) backslash)
    eqn:Hc.
  - destruct (@Split_second _ _ Hc) as [part Hpart].
    destruct (Split (Group_PrincipalName (Group groupEntitlement)) backslash)
      as [|h t]; [discriminate|].
    simpl in Hpart. simpl. rewrite Hpart. reflexivity.
  - reflexivity.
Qed.

(** X22. An add call answered with an operation that did not succeed: Create
    returns an error or panics, but never stores anything and never issues
    another call; when the operation carries no error list, the error is
    the unknown-API-error one. *)
Theorem resourceGroupEntitlementCreate_failed_operation
  (d : ResourceData) (g : G) (groupEntitlement : GroupEntitlement)
  (operation : GroupEntitlementOperationReference)
  (first : GroupOperationResult) (rest : list GroupOperationResult) :
  let a := AddGroupEntitlement clients groupEntitlement g in
  let out :=
    resourceGroupEntitlementCreate clients converter_AccountLicenseType
      converter_AccountLicensingSource uuid_Parse (start d g) in
  fst (expandGroupEntitlement converter_AccountLicenseType
         converter_AccountLicensingSource (start d g)) =
    Done (Ok groupEntitlement) ->
  fst a = Ok operation ->
  Results operation = first :: rest ->
  IsSuccess first = false ->
  fst out <> Done None /\
  snd out = mkSession d (snd a) [AddGroupEntitlementCall groupEntitlement] /\
  (Errors first = None ->
   fst out =
     Done (Some (ErrorfWrap "Creating group entitlement: %v" []
                   (Errorf "Adding group entitlement: %s"
                      ["Unknown API error"])))).
Proof.
  intros a out Hexpand Ha Hres Hfail. subst a out.
  destruct (expandGroupEntitlement_runs (start d g)) as [r Hrun].
  rewrite Hrun in Hexpand. simpl in Hexpand. injection Hexpand as ->.
  unfold resourceGroupEntitlementCreate.
  assert (Hout :
    forall k : result GroupEntitlement -> Action (G := G) (option error),
      bind (expandGroupEntitlement converter_AccountLicenseType
              converter_AccountLicensingSource) k (start d g) =
      k (Ok groupEntitlement) (start d g)).
  { intros k. unfold bind at 1. rewrite Hrun. reflexivity. }
  rewrite Hout. unfold addGroupEntitlement. exec.
  rewrite Ha. simpl. rewrite Hres. simpl. rewrite Hfail. simpl.
  destruct (Errors first) as [errors|]; simpl.
  - match goal with
    | |- context [joinErrors ?lines] => destruct (joinErrors lines)
    end; simpl; repeat split; discriminate.
  - repeat split; discriminate.
Qed.

(** X24. What a successful read stores: the identifier, the descriptor, the
    names, the origin and the license of the reply; the stored origin id is
    kept when the reply has none. *)
Theorem resourceGroupEntitlementRead_decodes
  (d : ResourceData) (g : G) (id id' desc : string)
  (groupEntitlement : GroupEntitlement) :
  let out := resourceGroupEntitlementRead clients uuid_Parse (start d g) in
  uuid_Parse (Id d) = Ok id ->
  fst (GetGroupEntitlement clients id g) = Ok groupEntitlement ->
  GroupEntitlement_Id groupEntitlement = Some id' ->
  Group_Descriptor (Group groupEntitlement) = Some desc ->
  fst out = Done None /\
  data (snd out) =
    {| Id := id';
       display_name := Group_DisplayName (Group groupEntitlement);
       principal_name := Group_PrincipalName (Group groupEntitlement);
       origin_id :=
         match Group_OriginId (Group groupEntitlement) with
         | Some o => o
         | None => origin_id d
         end;
       origin := Group_Origin (Group groupEntitlement);
       account_license_type :=
         AccountLicenseType (LicenseRule groupEntitlement);
       licensing_source := LicensingSource (LicenseRule groupEntitlement);
       descriptor := desc |}.
Proof.
  intros out Hparse Hget Hid Hdesc. subst out.
  unfold resourceGroupEntitlementRead, readGroupEntitlement,
    flattenGroupEntitlement. exec.
  rewrite Hparse. simpl. rewrite Hget. simpl. rewrite Hid. simpl.
  rewrite Hdesc. simpl. auto.
Qed.

(** X23. An add call answered without any operation result: Create indexes the
    empty result list and panics; the add call is the only call and nothing
    is stored. *)
Theorem resourceGroupEntitlementCreate_empty_results
  (d : ResourceData) (g : G) (groupEntitlement : GroupEntitlement)
  (operation : GroupEntitlementOperationReference) :
  let a := AddGroupEntitlement clients groupEntitlement g in
  let out :=
    resourceGroupEntitlementCreate clients converter_AccountLicenseType
      converter_AccountLicensingSource uuid_Parse (start d g) in
  fst (expandGroupEntitlement converter_AccountLicenseType
         converter_AccountLicensingSource (start d g)) =
    Done (Ok groupEntitlement) ->
  fst a = Ok operation ->
  Results operation = [] ->
  (exists reason, fst out = Panicked reason) /\
  snd out = mkSession d (snd a) [AddGroupEntitlementCall groupEntitlement].
Proof.
  intros a out Hexpand Ha Hres. subst a out.
  destruct (expandGroupEntitlement_runs (start d g)) as [r Hrun].
  rewrite Hrun in Hexpand. simpl in Hexpand. injection Hexpand as ->.
  unfold resourceGroupEntitlementCreate.
  assert (Hout :
    forall k : result GroupEntitlement -> Action (G := G) (option error),
      bind (expandGroupEntitlement converter_AccountLicenseType
              converter_AccountLicensingSource) k (start d g) =
      k (Ok groupEntitlement) (start d g)).
  { intros k. unfold bind at 1. rewrite Hrun. reflexivity. }
  rewrite Hout. unfold addGroupEntitlement. exec.
  rewrite Ha. simpl. rewrite Hres. simpl.
  split; [eexists; reflexivity|reflexivity].
Qed.

End MoreGroupEntitlementProperties.

Lemma expandGroupEntitlement_display_name_witness :
  fst (GroupEntitlementResource.expandGroupEntitlement Scenario.acceptAll
         Scenario.acceptAll (start Cases.byPrincipal 0%nat)) =
  Done (Ok Cases.readersRequest).
Proof.
  exact (@expandGroupEntitlement_display_name nat Scenario.acceptAll
           Scenario.acceptAll Cases.byPrincipal 0%nat "[contoso]" "Readers"
           "express" "account" eq_refl eq_refl eq_refl eq_refl eq_refl eq_refl).
Defined.

Lemma expandGroupEntitlement_after_flatten_witness :
  let flattened :=
    GroupEntitlementResource.flattenGroupEntitlement Cases.readersEntitlement
      (start Cases.storedEntitlement 0%nat) in
  exists e,
    fst (GroupEntitlementResource.expandGroupEntitlement Scenario.acceptAll
           Scenario.acceptAll (snd flattened)) = Done (Err e).
Proof.
  destruct (@expandGroupEntitlement_after_flatten nat Scenario.acceptAll
              Scenario.acceptAll Cases.readersEntitlement
              "9d2f0c11-5e3a-4b7c-8f6d-2a1b0c9e8d7f"
              "vssgp.Uy0xLTktMTU1MTM3NDI0NQ"
              "a1b2c3d4-0000-4000-8000-1234567890ab"
              (start Cases.storedEntitlement 0%nat) eq_refl eq_refl eq_refl)
    as [_ H].
  - discriminate.
  - simpl. discriminate.
  - eexists. exact H.
Defined.

Lemma resourceGroupEntitlementCreate_failed_operation_witness :
  let out :=
    GroupEntitlementResource.resourceGroupEntitlementCreate
      (Scripted.client Cases.operationFailed) Scenario.acceptAll
      Scenario.acceptAll Scenario.acceptAll (start Cases.byPrincipal 0%nat) in
  fst out =
    Done (Some (ErrorfWrap "Creating group entitlement: %v" []
                  (Errorf "Adding group entitlement: %s"
                     ["Unknown API error"]))) /\
  GroupEntitlementResource.Id (data (snd out)) = "".
Proof.
  destruct (@resourceGroupEntitlementCreate_failed_operation nat
              (Scripted.client Cases.operationFailed) Scenario.acceptAll
              Scenario.acceptAll Scenario.acceptAll Cases.byPrincipal 0%nat
              Cases.readersRequest
              {| Results :=
                   [{| Errors := None; IsSuccess := false;
                       Result := Cases.readersEntitlement |}] |}
              {| Errors := None; IsSuccess := false;
                 Result := Cases.readersEntitlement |} []
              eq_refl eq_refl eq_refl eq_refl)
    as (_ & H2 & H3).
  cbv zeta. rewrite H2. split; [exact (H3 eq_refl)|reflexivity].
Defined.

Lemma resourceGroupEntitlementRead_decodes_witness :
  let out :=
    GroupEntitlementResource.resourceGroupEntitlementRead
      (Scripted.client Cases.entitlementFound) Scenario.acceptAll
      (start Cases.storedEntitlement 0%nat) in
  fst out = Done None /\
  GroupEntitlementResource.descriptor (data (snd out)) =
    "vssgp.Uy0xLTktMTU1MTM3NDI0NQ" /\
  GroupEntitlementResource.origin_id (data (snd out)) =
    "a1b2c3d4-0000-4000-8000-1234567890ab".
Proof.
  destruct (@resourceGroupEntitlementRead_decodes nat
              (Scripted.client Cases.entitlementFound) Scenario.acceptAll
              Cases.storedEntitlement 0%nat
              "9d2f0c11-5e3a-4b7c-8f6d-2a1b0c9e8d7f"
              "9d2f0c11-5e3a-4b7c-8f6d-2a1b0c9e8d7f"
              "vssgp.Uy0xLTktMTU1MTM3NDI0NQ" Cases.readersEntitlement
              eq_refl eq_refl eq_refl eq_refl)
    as (H1 & H2).
  cbv zeta. rewrite H2. split; [exact H1|split; reflexivity].
Defined.

Lemma genAuditStreamCreateFunc_failed_create_witness :
  let out :=
    AuditResource.genAuditStreamCreateFunc (Scripted.client Scenario.broken)
      (AuditResource.doBaseFlattening (G := nat))
      (AuditResource.doBaseExpansion (G := nat))
      (start Scenario.newStream 0%nat) in
  fst out =
    Done (Some (ErrorfWrap "Error creating audit stream in Azure DevOps: %+v"
                  [] Scenario.serverError)) /\
  calls (snd out) = [CreateStreamCall Scenario.newStreamRequest 0].
Proof.
  destruct (@genAuditStreamCreateFunc_failed_create nat
              (Scripted.client Scenario.broken)
              (AuditResource.doBaseFlattening (G := nat))
              (AuditResource.doBaseExpansion (G := nat))
              Scenario.newStream 0%nat Scenario.newStreamRequest 0%Z true
              eq_refl) as [H _].
  cbv zeta. rewrite (H Scenario.serverError eq_refl). split; reflexivity.
Defined.

Lemma genAuditStreamCreateFunc_status_from_create_reply_witness :
  let out :=
    AuditResource.genAuditStreamCreateFunc
      (Scripted.client Scenario.enabledAtOnce)
      (AuditResource.doBaseFlattening (G := nat))
      (AuditResource.doBaseExpansion (G := nat))
      (start Scenario.newStream 0%nat) in
  exists rest,
    calls (snd out) =
      [CreateStreamCall Scenario.newStreamRequest 0; QueryStreamByIdCall 7] ++
      [UpdateStatusCall (Some 7%Z) (Some (AddrOfValues FEnabled))] ++ rest /\
    count_calls isUpdateStatus rest = 0%nat.
Proof.
  exact (@genAuditStreamCreateFunc_status_from_create_reply nat
           (Scripted.client Scenario.enabledAtOnce)
           (AuditResource.doBaseExpansion (G := nat))
           Scenario.newStream 0%nat Scenario.newStreamRequest
           (Scenario.heapStream 0 FEnabled) 0%Z true 7%Z
           (Some (Scenario.heapStream 1 FEnabled))
           eq_refl eq_refl eq_refl eq_refl).
Defined.

Lemma resourceFeedPermissionUpdate_replaces_grant_witness :
  let out :=
    FeedPermissionResource.resourceFeedPermissionUpdate
      (Scripted.client Cases.setRefused) (start Scenario.grantForAlice 0) in
  count_calls isSetFeedPermissions (calls (snd out)) = 1 /\
  (exists e, fst out = Done (Some e)) /\
  data (snd out) = Scenario.grantForAlice.
Proof.
  destruct (@resourceFeedPermissionUpdate_replaces_grant nat
              (Scripted.client Cases.setRefused) Scenario.grantForAlice 0%nat
              {| StorageKey_Value := Identity_Id Scenario.alice |}
              Scenario.alice [] [] Scenario.aliceGrant
              eq_refl eq_refl eq_refl (Forall_nil _) eq_refl)
    as (H1 & _ & H3).
  destruct (H3 Scenario.serverError eq_refl) as [H4 H5].
  split; [exact H1|]. split; [eexists; exact H4|exact H5].
Defined.

Lemma resourceGroupEntitlementCreate_empty_results_witness :
  let out :=
    GroupEntitlementResource.resourceGroupEntitlementCreate
      (Scripted.client Cases.operationMissing) Scenario.acceptAll
      Scenario.acceptAll Scenario.acceptAll (start Cases.byPrincipal 0%nat) in
  (exists reason, fst out = Panicked reason) /\
  calls (snd out) = [AddGroupEntitlementCall Cases.readersRequest].
Proof.
  destruct (@resourceGroupEntitlementCreate_empty_results nat
              (Scripted.client Cases.operationMissing) Scenario.acceptAll
              Scenario.acceptAll Scenario.acceptAll Cases.byPrincipal 0%nat
              Cases.readersRequest {| Results := [] |}
              eq_refl eq_refl eq_refl)
    as (H1 & H2).
  cbv zeta. rewrite H2. split; [exact H1|reflexivity].
Defined.
